(** * employee-connect: the XML form generator of [src/App.tsx]

    A shallow embedding of the two pieces of logic of the React component
    [App]: [parseXml], which turns the uploaded XML text into the form model
    and the initial value map, and [handleFormSubmit], which writes the form
    model and the entered values out as CSV text.

    The browser is modelled only as far as the component uses it:
    - the DOM tree ([Node]), with [getElementsByTagName] and [textContent];
    - the platform's [DOMParser], as an interface ([Class DOMParser]);
    - React state, as the list of state updates a handler enqueues.
    A [Record<string, string>] is an ordinary object: the finite map of its
    own properties ([gmap string string]) on top of [Object.prototype], whose
    properties a read finds when the object has none of its own under the
    name ([getProp], [setProp]).  Attributes and namespaces of elements, which
    the component never reads, are left out of [Node]. *)

From Stdlib Require Import Ascii.
From stdpp Require Import gmap strings list fin_maps.

(** ** Strings *)

Definition LF : string := String "010"%char EmptyString.
Definition DQUOTE : ascii := "034"%char.

(** JavaScript truthiness of a string, and [x || ''] on a possibly undefined
    string. *)
Definition truthy (s : string) : bool :=
  match s with EmptyString => false | String _ _ => true end.

Definition orEmpty (x : option string) : string :=
  match x with
  | Some s => if truthy s then s else ""
  | None => ""
  end.

(** [x === 'true'] on a possibly undefined string. *)
Definition strictEqTrue (x : option string) : bool :=
  match x with
  | Some s => String.eqb s "true"
  | None => false
  end.

(** [Array.prototype.join]. *)
Definition join (sep : string) (cells : list string) : string :=
  String.concat sep cells.

(** [s.replace(/c/g, by)] for a pattern that is one character. *)
Fixpoint replaceAll (c : ascii) (by_ : string) (s : string) : string :=
  match s with
  | EmptyString => EmptyString
  | String a rest =>
      if Ascii.eqb a c then by_ +:+ replaceAll c by_ rest
      else String a (replaceAll c by_ rest)
  end.

(** [Boolean.prototype.toString]. *)
Definition boolToString (b : bool) : string := if b then "true" else "false".

(** ** Objects used as maps

    The value maps of the component are object literals, so their prototype
    is [Object.prototype].  Their own properties are strings, written by
    [parseXml] and [handleInputChange]; the inherited ones are the properties
    that ECMA-262 gives to [Object.prototype] (section 20.1.3 and Annex
    B.2.2): eleven methods and the accessor [__proto__]. *)

Definition objectPrototypeNames : list string :=
  [ "constructor"; "hasOwnProperty"; "isPrototypeOf"; "propertyIsEnumerable";
    "toLocaleString"; "toString"; "valueOf"; "__proto__";
    "__defineGetter__"; "__defineSetter__"; "__lookupGetter__";
    "__lookupSetter__" ].

(** What a read of a property of a value map gives: nothing, a string of the
    map, or the function or object that [Object.prototype] holds under the
    name.  An inherited value is an object: it is truthy, it is not nullish,
    and it has no property [replace]. *)
Inductive JSValue : Type :=
| JSUndefined
| JSString (s : string)
| JSInherited (name : string).

(** [obj[key]]: the own property when there is one, else the property of
    that name of the prototype, else [undefined]. *)
Definition getProp (obj : gmap string string) (key : string) : JSValue :=
  match obj !! key with
  | Some s => JSString s
  | None =>
      if bool_decide (key ∈ objectPrototypeNames) then JSInherited key
      else JSUndefined
  end.

(** [obj[key] = value].  An own property is overwritten.  Without one, the
    assignment creates it, except under the name [__proto__]: there it runs
    the setter of the inherited accessor, which ignores a string and leaves
    the object as it was.  (The other properties of [Object.prototype] are
    writable data properties, which an assignment shadows.) *)
Definition setProp (key value : string) (obj : gmap string string)
  : gmap string string :=
  match obj !! key with
  | Some _ => <[key := value]> obj
  | None => if String.eqb key "__proto__" then obj else <[key := value]> obj
  end.

(** ** The DOM *)

Set Warnings "-register-all".

Inductive Node : Type :=
| Element (tagName : string) (childNodes : list Node)
| Text (data : string)
| CommentNode (data : string).

Definition childNodes (n : Node) : list Node :=
  match n with
  | Element _ cs => cs
  | _ => []
  end.

(** The elements of the subtree rooted at [n], [n] included, in tree order
    (preorder, the order of the start tags in the document). *)
Fixpoint inclusiveElements (n : Node) : list Node :=
  match n with
  | Element _ cs => n :: flat_map inclusiveElements cs
  | _ => []
  end.

Definition hasTagName (qualifiedName : string) (n : Node) : bool :=
  match n with
  | Element t _ => String.eqb t qualifiedName
  | _ => false
  end.

(** [parent.getElementsByTagName(qualifiedName)] for a parent node (a document
    or an element) whose children are [children]: the descendant elements
    with that name, in tree order.  XML names compare case-sensitively. *)
Definition getElementsByTagName (qualifiedName : string) (children : list Node)
  : list Node :=
  List.filter (hasTagName qualifiedName) (flat_map inclusiveElements children).

(** [element.textContent]: the data of the text nodes below the element,
    concatenated in tree order; comments contribute nothing. *)
Fixpoint textContent (n : Node) : string :=
  match n with
  | Element _ cs => String.concat "" (map textContent cs)
  | Text d => d
  | CommentNode _ => ""
  end.

Record Document : Type := { documentChildNodes : list Node }.

(** [collection[0]], [undefined] on an empty collection. *)
Definition item0 (collection : list Node) : option Node := head collection.

(** ** The form model *)

Record Field : Type := mkField {
  Id : string;
  Label : string;
  Type_ : string;
  ListItem : list string;
  Visible : bool;
  Mandatory : bool;
  DisplayOnly : bool;
  Comment : string
}.

Record FormData : Type := { FormField : list Field }.

(** ** parseXml: one [Field] element (the body of the loop, lines 66-97) *)

(** The inner loop over [items]: [listItems.push(itemText)] for the items whose
    text is not empty. *)
Definition pushItem (listItems : list string) (item : Node) : list string :=
  let itemText := orEmpty (Some (textContent item)) in
  if truthy itemText then listItems ++ [itemText] else listItems.

Definition collectListItems (field : Node) : list string :=
  match item0 (getElementsByTagName "List" (childNodes field)) with
  | Some listElement =>
      if 0 <? length (getElementsByTagName "Item" (childNodes listElement))
      then fold_left pushItem
             (getElementsByTagName "Item" (childNodes listElement)) []
      else []
  | None => []
  end.

(** [field.getElementsByTagName(tag)[0]?.textContent]. *)
Definition firstTextContent (tag : string) (field : Node) : option string :=
  textContent <$> item0 (getElementsByTagName tag (childNodes field)).

Definition parseFieldElement (field : Node) : Field :=
  let listItems := collectListItems field in
  let getId := orEmpty (firstTextContent "Id" field) in
  let getLabel := orEmpty (firstTextContent "Label" field) in
  let getType := orEmpty (firstTextContent "Type" field) in
  let getVisible := strictEqTrue (firstTextContent "Visible" field) in
  let getMandatory := strictEqTrue (firstTextContent "Mandatory" field) in
  let getDisplayOnly := strictEqTrue (firstTextContent "DisplayOnly" field) in
  let getComment := orEmpty (firstTextContent "Comment" field) in
  {| Id := getId;
     Label := getLabel;
     Type_ := getType;
     ListItem := listItems;
     Visible := getVisible;
     Mandatory := getMandatory;
     DisplayOnly := getDisplayOnly;
     Comment := getComment |}.

(** ** React state and event handlers *)

Record AppState : Type := mkAppState {
  xmlContent : string;
  formData : option FormData;
  error : option string;
  formValues : gmap string string
}.

(** The state of the first render: the arguments of the four [useState]. *)
Definition initialState : AppState :=
  {| xmlContent := ""; formData := None; error := None; formValues := ∅ |}.

(** What a handler can ask React to do.  [MergeFormValue] is the functional
    update [prev => ({...prev, [fieldId]: value})]: the spread copies the own
    properties of [prev] and the computed key defines an own property,
    whatever its name, so the update is an insertion into the map of own
    properties. *)
Inductive Update : Type :=
| SetXmlContent (content : string)
| SetFormData (data : option FormData)
| SetError (message : option string)
| SetFormValues (values : gmap string string)
| MergeFormValue (fieldId value : string).

Definition applyUpdate (st : AppState) (u : Update) : AppState :=
  match u with
  | SetXmlContent c =>
      {| xmlContent := c; formData := formData st;
         error := error st; formValues := formValues st |}
  | SetFormData d =>
      {| xmlContent := xmlContent st; formData := d;
         error := error st; formValues := formValues st |}
  | SetError m =>
      {| xmlContent := xmlContent st; formData := formData st;
         error := m; formValues := formValues st |}
  | SetFormValues v =>
      {| xmlContent := xmlContent st; formData := formData st;
         error := error st; formValues := v |}
  | MergeFormValue k v =>
      {| xmlContent := xmlContent st; formData := formData st;
         error := error st; formValues := <[k := v]> (formValues st) |}
  end.

(** The state of the next render, once the updates a handler enqueued have
    been applied in order. *)
Definition applyUpdates (st : AppState) (us : list Update) : AppState :=
  fold_left applyUpdate us st.

(** How a block of statements ends: it falls through with a value, a [return]
    statement ran, or an exception is on its way up (described by the text
    that [err.message] or [String(err)] gives). *)
Inductive Completion (A : Type) : Type :=
| Normal (value : A)
| Returned
| Thrown (err : string).
Arguments Normal {A} value.
Arguments Returned {A}.
Arguments Thrown {A} err.

(** A handler body: the updates enqueued so far, and how it ended. *)
Definition Handler (A : Type) : Type := (list Update * Completion A)%type.

#[global] Instance Handler_ret : MRet Handler :=
  fun A a => ([], Normal a).

#[global] Instance Handler_bind : MBind Handler :=
  fun A B k m =>
    match m with
    | (us, Normal a) => let '(us', c) := k a in (us ++ us', c)
    | (us, Returned) => (us, Returned)
    | (us, Thrown e) => (us, Thrown e)
    end.

Definition enqueue (u : Update) : Handler unit := ([u], Normal tt).
Definition setError (message : string) : Handler unit :=
  enqueue (SetError (Some message)).
Definition setFormData (data : FormData) : Handler unit :=
  enqueue (SetFormData (Some data)).
Definition setFormValues (values : gmap string string) : Handler unit :=
  enqueue (SetFormValues values).
Definition return_ {A} : Handler A := ([], Returned).
Definition when (c : bool) (body : Handler unit) : Handler unit :=
  if c then body else mret tt.

(** [try { body } catch (err) { handler }]. *)
Definition tryCatch {A} (body : Handler A) (handler : string -> Handler A)
  : Handler A :=
  match body with
  | (us, Thrown e) => let '(us', c) := handler e in (us ++ us', c)
  | other => other
  end.

(** ** The platform's XML parser *)

(** The result of a call into the platform. *)
Inductive Outcome (A : Type) : Type :=
| Value (a : A)
| Raise (err : string).
Arguments Value {A} a.
Arguments Raise {A} err.

Definition call {A} (o : Outcome A) : Handler A :=
  match o with
  | Value a => ([], Normal a)
  | Raise e => ([], Thrown e)
  end.

(** [new DOMParser().parseFromString(str, type)].  The parser has no error
    channel of its own: when it finds the text not well-formed
    ([reportsError]) the document it returns holds a [parsererror] element
    (DOM Parsing and Serialization, "parseFromString"). *)
Class DOMParser : Type := {
  parseFromString : string -> string -> Outcome Document;
  reportsError : string -> bool;
  parsererror_reported : forall str doc,
    parseFromString str "text/xml" = Value doc ->
    reportsError str = true ->
    getElementsByTagName "parsererror" (documentChildNodes doc) <> []
}.

(** ** parseXml *)

Definition pushField (fields : list Field) (field : Node) : list Field :=
  fields ++ [parseFieldElement field].

(** The callback of [fields.forEach]: [initialValues[field.Id] = ''] for a
    field that is visible and not display-only. *)
Definition seedValue (initialValues : gmap string string) (field : Field)
  : gmap string string :=
  if Visible field && negb (DisplayOnly field)
  then setProp (Id field) "" initialValues
  else initialValues.

Section ParseXml.
Context `{parser : DOMParser}.

Definition parseXml (st : AppState) : list Update :=
  fst (tryCatch
    (when (negb (truthy (xmlContent st)))
       (setError "Please upload an XML file first" ;; return_) ;;
     xmlDoc ← call (parseFromString (xmlContent st) "text/xml") ;
     when (0 <? length (getElementsByTagName "parsererror"
                          (documentChildNodes xmlDoc)))
       (setError "Invalid XML file" ;; return_) ;;
     let fieldElements :=
       getElementsByTagName "Field" (documentChildNodes xmlDoc) in
     when (length fieldElements =? 0)
       (setError "No Field elements found in the XML" ;; return_) ;;
     let fields := fold_left pushField fieldElements [] in
     when (length fields =? 0)
       (setError "No valid fields found in the XML" ;; return_) ;;
     setFormData {| FormField := fields |} ;;
     let initialValues := fold_left seedValue fields ∅ in
     setFormValues initialValues)
    (fun err => setError ("Error parsing XML: " +:+ err))).

End ParseXml.

(** ** A DOMParser for a fragment of XML

    An instance of the interface that can be run: it reads the documents made
    of start tags, end tags and empty-element tags without attributes and of
    character data without references, over printable ASCII, tab and line
    feed.  Everything else (prolog, comments, CDATA sections, attributes,
    entity references, other characters) is outside the fragment and is
    answered with the error document, as a text that is not well-formed is. *)
Module MiniDOM.

Inductive Token : Type :=
| TStart (name : string)
| TEnd (name : string)
| TEmpty (name : string)
| TChars (data : string).

Definition isNameStartChar (c : ascii) : bool :=
  let n := nat_of_ascii c in
  ((65 <=? n) && (n <=? 90)) || ((97 <=? n) && (n <=? 122))
  || (n =? 95) || (n =? 58).

Definition isNameChar (c : ascii) : bool :=
  let n := nat_of_ascii c in
  isNameStartChar c || ((48 <=? n) && (n <=? 57)) || (n =? 45) || (n =? 46).

Definition isSpace (c : ascii) : bool :=
  let n := nat_of_ascii c in (n =? 32) || (n =? 9) || (n =? 10).

Definition isChar (c : ascii) : bool :=
  let n := nat_of_ascii c in
  ((32 <=? n) && (n <=? 126)) || (n =? 9) || (n =? 10).

Fixpoint allChars (p : ascii -> bool) (s : string) : bool :=
  match s with
  | EmptyString => true
  | String c rest => p c && allChars p rest
  end.

Definition isName (s : string) : bool :=
  match s with
  | EmptyString => false
  | String c rest => isNameStartChar c && allChars isNameChar rest
  end.

(** The last character of a string, and the string without it. *)
Fixpoint unsnoc (s : string) : option (string * ascii) :=
  match s with
  | EmptyString => None
  | String c rest =>
      match unsnoc rest with
      | None => Some (EmptyString, c)
      | Some (front, last) => Some (String c front, last)
      end
  end.

(** The markup between [<] and [>]. *)
Definition classifyTag (body : string) : option Token :=
  match body with
  | String "/" name => if isName name then Some (TEnd name) else None
  | _ =>
      match unsnoc body with
      | Some (name, "/"%char) =>
          if isName name then Some (TEmpty name) else None
      | _ => if isName body then Some (TStart body) else None
      end
  end.

Definition flushChars (acc : string) : list Token :=
  if truthy acc then [TChars acc] else [].

Fixpoint tokenize (inTag : bool) (acc : string) (s : string)
  : option (list Token) :=
  match s with
  | EmptyString => if inTag then None else Some (flushChars acc)
  | String c rest =>
      if negb (isChar c) then None
      else if inTag then
        if Ascii.eqb c ">" then
          match classifyTag acc, tokenize false "" rest with
          | Some tok, Some toks => Some (tok :: toks)
          | _, _ => None
          end
        else if Ascii.eqb c "<" then None
        else tokenize true (acc +:+ String c "") rest
      else
        if Ascii.eqb c "<" then
          match tokenize true "" rest with
          | Some toks => Some (flushChars acc ++ toks)
          | None => None
          end
        else if Ascii.eqb c "&" || Ascii.eqb c ">" then None
        else tokenize false (acc +:+ String c "") rest
  end.

(** [open] is the stack of the elements whose end tag is still to come,
    innermost first, each with the children its parent had collected before
    it; [current] are the children collected for the innermost one. *)
Fixpoint build (tokens : list Token) (open : list (string * list Node))
    (current : list Node) : option (list Node) :=
  match tokens with
  | [] => match open with [] => Some current | _ :: _ => None end
  | TChars d :: rest => build rest open (current ++ [Text d])
  | TEmpty n :: rest => build rest open (current ++ [Element n []])
  | TStart n :: rest => build rest ((n, current) :: open) []
  | TEnd n :: rest =>
      match open with
      | (m, outer) :: open' =>
          if String.eqb n m
          then build rest open' (outer ++ [Element m current])
          else None
      | [] => None
      end
  end.

(** A document is one root element; white space around it is not part of
    the tree. *)
Definition isMisc (n : Node) : bool :=
  match n with
  | Text d => allChars isSpace d
  | _ => false
  end.

Definition documentOf (top : list Node) : option Document :=
  match List.filter (fun n => negb (isMisc n)) top with
  | [Element t cs] => Some {| documentChildNodes := [Element t cs] |}
  | _ => None
  end.

Definition parseDocument (str : string) : option Document :=
  match tokenize false "" str with
  | Some tokens =>
      match build tokens [] [] with
      | Some top => documentOf top
      | None => None
      end
  | None => None
  end.

Definition errorDocument : Document :=
  {| documentChildNodes :=
       [Element "parsererror" [Text "XML Parsing Error: not well-formed"]] |}.

Definition parseFromString (str type : string) : Outcome Document :=
  if String.eqb type "text/xml" then
    match parseDocument str with
    | Some doc => Value doc
    | None => Value errorDocument
    end
  else Raise "TypeError: unsupported type".

Definition reportsError (str : string) : bool :=
  match parseDocument str with Some _ => false | None => true end.

#[global] Instance parser : DOMParser.
Proof.
  refine (Build_DOMParser parseFromString reportsError _).
  unfold parseFromString, reportsError. intros str doc. simpl.
  destruct (parseDocument str); [discriminate|].
  intros [= <-] _. discriminate.
Defined.

End MiniDOM.

Definition scenarioA : string :=
  "<Form><Field><Id>f1</Id><Type>Text</Type><Visible>true</Visible><Mandatory>true</Mandatory></Field></Form>".

(** ** handleFormSubmit: the CSV text *)

Definition headers : list string :=
  ["Id"; "Label"; "Type"; "Value"; "Visible"; "Mandatory"; "DisplayOnly";
   "Comment"].

(** The template literal that wraps a cell in double quotes. *)
Definition quoted (s : string) : string :=
  String DQUOTE (s +:+ String DQUOTE EmptyString).

(** The [replace] with the global pattern of one double quote: every double
    quote becomes two. *)
Definition doubleQuotes (s : string) : string :=
  replaceAll DQUOTE (String DQUOTE (String DQUOTE EmptyString)) s.

(** The text inside the quotes of the Value cell: the optional call of
    [replace] on the value read from the map, then the or with the empty
    string.  The optional chain stops at [undefined] only: an inherited
    function or object is not nullish and has no [replace], so the call
    throws a [TypeError].  The wording of its message is the engine's; the
    model fixes one. *)
Definition replaceTypeError : string :=
  "TypeError: formValues[field.Id]?.replace is not a function".

Definition valueText (value : JSValue) : Outcome string :=
  match value with
  | JSUndefined => Value ""
  | JSString s => Value (orEmpty (Some (doubleQuotes s)))
  | JSInherited _ => Raise replaceTypeError
  end.

(** The array [rowData] of a field.  Its elements are evaluated in order;
    only the fourth can throw. *)
Definition rowData (values : gmap string string) (field : Field)
  : Outcome (list string) :=
  match valueText (getProp values (Id field)) with
  | Value text =>
      Value [ Id field;
              quoted (doubleQuotes (Label field));
              Type_ field;
              quoted text;
              boolToString (Visible field);
              boolToString (Mandatory field);
              boolToString (DisplayOnly field);
              quoted (doubleQuotes (Comment field)) ]
  | Raise err => Raise err
  end.

(** The body of the [forEach]: [csvContent += rowData.join(',') + '\n'] for a
    visible field.  An exception ends the loop: it is not caught. *)
Definition appendRow (values : gmap string string)
    (csvContent : Outcome string) (field : Field) : Outcome string :=
  match csvContent with
  | Value csv =>
      if Visible field
      then match rowData values field with
           | Value row => Value (csv +:+ (join "," row +:+ LF))
           | Raise err => Raise err
           end
      else Value csv
  | Raise err => Raise err
  end.

Definition csvContent (data : FormData) (values : gmap string string)
  : Outcome string :=
  fold_left (appendRow values) (FormField data)
    (Value (join "," headers +:+ LF)).

(** What the handler does: it returns at once while there is no form
    ([Value None]); it offers the text for download ([Value (Some csv)]); or
    the exception of the loop leaves the handler, which has no [try], and
    nothing is offered. *)
Definition handleFormSubmit (st : AppState) : Outcome (option string) :=
  match formData st with
  | None => Value None
  | Some data =>
      match csvContent data (formValues st) with
      | Value csv => Value (Some csv)
      | Raise err => Raise err
      end
  end.

(** [handleInputChange]. *)
Definition handleInputChange (fieldId value : string) : list Update :=
  [MergeFormValue fieldId value].

(** ** Vocabulary of the specification *)

(** The three user-facing failures of the parser and the messages by which
    [parseXml] reports them. *)
Inductive ParseError : Type := Empty | Malformed | NoFields.

Definition reportedAs (e : ParseError) (message : string) : bool :=
  match e with
  | Empty => String.eqb message "Please upload an XML file first"
  | Malformed => String.eqb message "Invalid XML file"
  | NoFields =>
      String.eqb message "No Field elements found in the XML"
      || String.eqb message "No valid fields found in the XML"
  end.

(** A run of a handler failed when all it did was to set the error. *)
Definition failedWith (e : ParseError) (us : list Update) : Prop :=
  exists message, us = [SetError (Some message)] /\ reportedAs e message = true.

Definition failed (us : list Update) : Prop :=
  exists message, us = [SetError (Some message)].

(** A run succeeded when it installed a form model and a value map. *)
Definition generated (fields : list Field) (values : gmap string string)
    (us : list Update) : Prop :=
  us = [SetFormData (Some {| FormField := fields |}); SetFormValues values].

(** A field that takes input: shown and not display-only. *)
Definition editable (f : Field) : bool := Visible f && negb (DisplayOnly f).

(** The child elements of an element with a given name: the direct children
    only, which is what a child element is in the DOM. *)
Definition childrenByTagName (tag : string) (field : Node) : list Node :=
  List.filter (hasTagName tag) (childNodes field).

(** [String.prototype.trim] on ASCII white space. *)
Definition isWhiteSpace (c : ascii) : bool :=
  let n := nat_of_ascii c in
  (n =? 32) || (n =? 9) || (n =? 10) || (n =? 11) || (n =? 12) || (n =? 13).

Fixpoint trimStart (s : string) : string :=
  match s with
  | String c rest => if isWhiteSpace c then trimStart rest else s
  | EmptyString => EmptyString
  end.

Fixpoint trimEnd (s : string) : string :=
  match s with
  | String c rest =>
      match trimEnd rest with
      | EmptyString => if isWhiteSpace c then EmptyString else String c EmptyString
      | rest' => String c rest'
      end
  | EmptyString => EmptyString
  end.

Definition trim (s : string) : string := trimEnd (trimStart s).

(** The number of occurrences of a character in a text, and the number of
    lines of a text in which every line is ended by a line feed. *)
Fixpoint countChar (c : ascii) (s : string) : nat :=
  match s with
  | EmptyString => 0
  | String a rest => (if Ascii.eqb a c then 1 else 0) + countChar c rest
  end.

Definition lineCount (s : string) : nat := countChar "010"%char s.

(** The cells of a line of comma-separated text with no quoted cell. *)
Fixpoint splitOn (c : ascii) (s : string) : list string :=
  match s with
  | EmptyString => [EmptyString]
  | String a rest =>
      if Ascii.eqb a c then EmptyString :: splitOn c rest
      else match splitOn c rest with
           | cell :: cells => String a cell :: cells
           | [] => [String a EmptyString]
           end
  end.

(** The text made of the given rows, each row written as its cells joined by
    commas and ended by a line feed. *)
Fixpoint csvLines (rows : list (list string)) : string :=
  match rows with
  | [] => ""
  | row :: rest => (join "," row +:+ LF) +:+ csvLines rest
  end.

(** The first line of a text, without the line feed that ends it. *)
Fixpoint firstLine (s : string) : string :=
  match s with
  | EmptyString => EmptyString
  | String c rest =>
      if Ascii.eqb c "010"%char then EmptyString else String c (firstLine rest)
  end.

(** A text that holds no line feed. *)
Definition singleLine (s : string) : Prop := countChar "010"%char s = 0.

Definition Q : string := String DQUOTE EmptyString.

(** The cells of the data row of a field whose Value is the given text. *)
Definition rowCells (f : Field) (value : string) : list string :=
  [ Id f; Q +:+ doubleQuotes (Label f) +:+ Q; Type_ f;
    Q +:+ doubleQuotes value +:+ Q;
    boolToString (Visible f); boolToString (Mandatory f);
    boolToString (DisplayOnly f); Q +:+ doubleQuotes (Comment f) +:+ Q ].

(** A read of the value map under this key finds an inherited property: the
    map has no own property of that name and [Object.prototype] has one. *)
Definition readsInherited (values : gmap string string) (key : string)
  : bool :=
  match getProp values key with
  | JSInherited _ => true
  | _ => false
  end.

(** The first element with a given name met by a depth-first walk from left
    to right: the first in document order. *)
Fixpoint firstInSubtree (tag : string) (n : Node) : option Node :=
  match n with
  | Element t cs =>
      if String.eqb t tag then Some n
      else (fix firstIn (l : list Node) : option Node :=
              match l with
              | [] => None
              | c :: l' =>
                  match firstInSubtree tag c with
                  | Some e => Some e
                  | None => firstIn l'
                  end
              end) cs
  | _ => None
  end.

Fixpoint firstDescendant (tag : string) (children : list Node) : option Node :=
  match children with
  | [] => None
  | c :: rest =>
      match firstInSubtree tag c with
      | Some e => Some e
      | None => firstDescendant tag rest
      end
  end.

(** Inputs used in the examples. *)
Definition stateWith (xml : string) : AppState :=
  {| xmlContent := xml; formData := None; error := None; formValues := ∅ |}.

Definition shadowedXml : string :=
  "<Form><parsererror></parsererror><Field><Id>f1</Id></Field></Form>".

(** The reading of the specification for one extracted string: the trimmed
    text of the first child element with the given name, the empty string
    when there is no such child. *)
Definition trimmedChildText (tag : string) (field : Node) : string :=
  match childrenByTagName tag field with
  | c :: _ => trim (textContent c)
  | [] => ""
  end.

Definition emptyItemField : Node :=
  Element "Field"
    [Element "List" [Element "Item" []; Element "Item" [Text "A"]]].

Definition textFieldWithListXml : string :=
  "<Form><Field><Id>c</Id><Type>Text</Type><List><Item>A</Item></List><Visible>true</Visible></Field></Form>".

Definition paddedField : Node :=
  Element "Field" [Element "Id" [Text " f1 "]].

Definition nestedIdField : Node :=
  Element "Field"
    [Element "Group" [Element "Id" [Text "g"]]; Element "Id" [Text "f1"]].

Definition nestedVisibleField : Node :=
  Element "Field"
    [Element "Id" [Text "f1"];
     Element "Group" [Element "Visible" [Text "true"]]].

Definition capitalTrueField : Node :=
  Element "Field" [Element "Visible" [Text "True"]].

Definition scenarioForm : FormData :=
  {| FormField :=
       [ {| Id := "f1"; Label := ""; Type_ := "Text"; ListItem := [];
            Visible := true; Mandatory := true; DisplayOnly := false;
            Comment := "" |} ] |}.

Definition previousForm : FormData :=
  {| FormField :=
       [ {| Id := "f1"; Label := "Name"; Type_ := "Text"; ListItem := [];
            Visible := true; Mandatory := true; DisplayOnly := false;
            Comment := "" |} ] |}.

Definition stateAfterEdit (xml : string) : AppState :=
  {| xmlContent := xml; formData := Some previousForm; error := None;
     formValues := {[ "f1" := "hello" ]} |}.

(** ** The rendered tree

    What [renderForm] and the component return: React elements, written as
    the JSX has them.  A child is an element, a string, an array of children,
    or one of the values that render as nothing ([null], [false]). *)

Inductive EventHandler : Type :=
| OnFileUpload
| OnParseXml
| OnFormSubmit
| OnInputChange (fieldId : string).

#[global] Instance EventHandler_eq_dec : EqDecision EventHandler.
Proof. solve_decision. Defined.

(** The value of an attribute.  [PInherited] is the function or object that
    [Object.prototype] holds under a name, wherever an expression evaluates
    to it. *)
Inductive PropValue : Type :=
| PString (s : string)
| PBool (b : bool)
| PHandler (h : EventHandler)
| PInherited (name : string).

#[global] Instance PropValue_eq_dec : EqDecision PropValue.
Proof. solve_decision. Defined.

Inductive Key : Type :=
| KeyString (s : string)
| KeyIndex (index : nat).

Inductive VNode : Type :=
| VElement (type : string) (key : option Key)
    (props : list (string * PropValue)) (children : list VNode)
| VText (text : string)
| VNone
| VArray (items : list VNode).

(** [cond && element] for a boolean and for a string condition: a false
    condition is itself the value of the expression. *)
Definition andB (cond : bool) (element : VNode) : VNode :=
  if cond then element else VNone.

Definition andS (cond : string) (element : VNode) : VNode :=
  if truthy cond then element else VText cond.

(** [value || ''] for a value read from the map: an inherited function or
    object is truthy and stays. *)
Definition valueOrEmpty (value : JSValue) : PropValue :=
  match value with
  | JSUndefined => PString ""
  | JSString s => PString (orEmpty (Some s))
  | JSInherited name => PInherited name
  end.

(** The attributes shared by the four controls of a field. *)
Definition controlProps (values : gmap string string) (field : Field)
  : list (string * PropValue) :=
  [ ("required", PBool (Mandatory field));
    ("disabled", PBool (DisplayOnly field));
    ("title", PString (Comment field));
    ("value", valueOrEmpty (getProp values (Id field)));
    ("onChange", PHandler (OnInputChange (Id field))) ].

Definition inputElement (type : string) (values : gmap string string)
    (field : Field) : VNode :=
  VElement "input" None (("type", PString type) :: controlProps values field) [].

Definition textareaElement (values : gmap string string) (field : Field)
  : VNode :=
  VElement "textarea" None (controlProps values field) [].

Definition optionElement (index : nat) (item : string) : VNode :=
  VElement "option" (Some (KeyIndex index)) [("value", PString item)]
    [VText item].


Definition placeholderOption : VNode :=
  VElement "option" None [("value", PString "")] [VText "Select an option"].

Definition selectElement (values : gmap string string) (field : Field)
  : VNode :=
  VElement "select" None (controlProps values field)
    [placeholderOption; VArray (imap optionElement (ListItem field))].

Definition requiredMark : VNode :=
  VElement "span" None [("className", PString "required")] [VText "*"].

Definition labelElement (field : Field) : VNode :=
  VElement "label" None []
    [VText (Label field); VText " "; andB (Mandatory field) requiredMark].

Definition commentElement (field : Field) : VNode :=
  VElement "div" None [("className", PString "field-comment")]
    [VText (Comment field)].

(** The block of a visible field. *)
Definition fieldBlock (values : gmap string string) (field : Field) : VNode :=
  VElement "div" (Some (KeyString (Id field)))
    [("className", PString "form-field")]
    [ labelElement field;
      andB (String.eqb (Type_ field) "Text")
        (inputElement "text" values field);
      andB (String.eqb (Type_ field) "Number")
        (inputElement "number" values field);
      andB (String.eqb (Type_ field) "Textarea")
        (textareaElement values field);
      andB (String.eqb (Type_ field) "Dropdown")
        (selectElement values field);
      andS (Comment field) (commentElement field) ].

(** The callback of [formData.Form.Field.map] in [renderForm]. *)
Definition renderField (values : gmap string string) (field : Field) : VNode :=
  if negb (Visible field) then VNone else fieldBlock values field.

Definition submitButton : VNode :=
  VElement "button" None [("type", PString "submit")] [VText "Submit"].

Definition formHeading : VNode :=
  VElement "h2" None [] [VText "Generated Form"].

Definition formElement (values : gmap string string) (data : FormData)
  : VNode :=
  VElement "form" None [("onSubmit", PHandler OnFormSubmit)]
    [ VArray (map (renderField values) (FormField data));
      andB (existsb Visible (FormField data)) submitButton ].

Definition renderForm (st : AppState) : VNode :=
  match formData st with
  | None => VNone
  | Some data =>
      VElement "div" None [("className", PString "generated-form")]
        [formHeading; formElement (formValues st) data]
  end.

Definition fileInput : VNode :=
  VElement "input" None
    [ ("type", PString "file"); ("accept", PString ".xml");
      ("onChange", PHandler OnFileUpload) ] [].

Definition generateButton (st : AppState) : VNode :=
  VElement "button" None
    [ ("onClick", PHandler OnParseXml);
      ("disabled", PBool (negb (truthy (xmlContent st)))) ]
    [VText "Generate Form"].

Definition errorMessage (st : AppState) : VNode :=
  match error st with
  | None => VNone
  | Some message =>
      andS message
        (VElement "div" None [("className", PString "error-message")]
           [VText message])
  end.

Definition uploadSection (st : AppState) : VNode :=
  VElement "div" None [("className", PString "upload-section")]
    [ VElement "h2" None [] [VText "Upload XML File"];
      fileInput; generateButton st; errorMessage st ].

(** What the component returns. *)
Definition renderApp (st : AppState) : VNode :=
  VElement "div" None [("className", PString "App")]
    [ VElement "h1" None [] [VText "XML Form Generator"];
      uploadSection st;
      renderForm st ].

(** ** Reading a rendered tree *)

(** The elements of a tree in document order, the root included; the items
    of an array are children of the element that holds the array. *)
Fixpoint vElements (v : VNode) : list VNode :=
  match v with
  | VElement _ _ _ children => v :: flat_map vElements children
  | VArray items => flat_map vElements items
  | _ => []
  end.

Definition vType (v : VNode) : string :=
  match v with VElement t _ _ _ => t | _ => "" end.

Definition vKey (v : VNode) : option Key :=
  match v with VElement _ k _ _ => k | _ => None end.

Definition vChildren (v : VNode) : list VNode :=
  match v with VElement _ _ _ cs => cs | _ => [] end.

Fixpoint lookupProp (name : string) (props : list (string * PropValue))
  : option PropValue :=
  match props with
  | [] => None
  | (n, value) :: rest =>
      if String.eqb n name then Some value else lookupProp name rest
  end.

Definition prop (name : string) (v : VNode) : option PropValue :=
  match v with VElement _ _ props _ => lookupProp name props | _ => None end.

Definition isDisabled (v : VNode) : bool :=
  match prop "disabled" v with Some (PBool true) => true | _ => false end.

(** The field whose value a control edits: the id its [onChange] passes to
    [handleInputChange]. *)
Definition onInputChange (v : VNode) : option string :=
  match prop "onChange" v with
  | Some (PHandler (OnInputChange fieldId)) => Some fieldId
  | _ => None
  end.

(** The controls of the fields, and the ids that a change event can carry:
    a disabled control fires none. *)
Definition fieldControls (v : VNode) : list VNode :=
  List.filter (fun e => bool_decide (is_Some (onInputChange e))) (vElements v).

Definition changeTargets (v : VNode) : list string :=
  omap (fun e => if isDisabled e then None else onInputChange e) (vElements v).

Definition keyString (v : VNode) : option string :=
  match vKey v with Some (KeyString s) => Some s | _ => None end.

Definition isGenerateButton (v : VNode) : bool :=
  bool_decide (prop "onClick" v = Some (PHandler OnParseXml)).

Definition isSubmitButton (v : VNode) : bool :=
  String.eqb (vType v) "button"
  && bool_decide (prop "type" v = Some (PString "submit")).

Definition canGenerate (st : AppState) : bool :=
  existsb (fun e => isGenerateButton e && negb (isDisabled e))
    (vElements (renderApp st)).

Definition canSubmit (st : AppState) : bool :=
  existsb isSubmitButton (vElements (renderApp st)).

(** The types for which [renderForm] has a control. *)
Definition hasControl (type : string) : bool :=
  String.eqb type "Text" || String.eqb type "Number"
  || String.eqb type "Textarea" || String.eqb type "Dropdown".

(** ** handleFileUpload and the session *)

(** [handleFileUpload]: the error is cleared at once; the text of the chosen
    file, if there is one, is handed to a [FileReader], whose [onload] sets
    the upload buffer later. *)
Definition handleFileUpload (file : option string)
  : list Update * option string :=
  ([SetError None], file).

Definition readerOnload (content : string) : list Update :=
  [SetXmlContent content].

(** The component and the reads that are under way. *)
Record Session : Type := mkSession {
  app : AppState;
  reading : list string
}.

Definition initialSession : Session :=
  {| app := initialState; reading := [] |}.

Inductive Event : Type :=
| ChooseFile (file : option string)
| ReadDone (content : string)
| ClickGenerate
| ChangeInput (fieldId value : string)
| SubmitForm.

(** Remove the first occurrence of a text. *)
Fixpoint removeFirst (x : string) (l : list string) : list string :=
  match l with
  | [] => []
  | y :: rest => if String.eqb x y then rest else y :: removeFirst x rest
  end.

Section SessionSteps.
Context `{parser : DOMParser}.

(** One event of the browser; [None] when the page as rendered cannot
    produce it: a read that is not under way, a click on a disabled or absent
    button, a change of a control that is disabled or not on the page. *)
Definition fire (s : Session) (e : Event) : option Session :=
  match e with
  | ChooseFile file =>
      let '(us, pending) := handleFileUpload file in
      Some {| app := applyUpdates (app s) us;
              reading := reading s ++ option_list pending |}
  | ReadDone content =>
      if bool_decide (content ∈ reading s)
      then Some {| app := applyUpdates (app s) (readerOnload content);
                   reading := removeFirst content (reading s) |}
      else None
  | ClickGenerate =>
      if canGenerate (app s)
      then Some {| app := applyUpdates (app s) (parseXml (app s));
                   reading := reading s |}
      else None
  | ChangeInput fieldId value =>
      if bool_decide (fieldId ∈ changeTargets (renderApp (app s)))
      then Some {| app := applyUpdates (app s)
                            (handleInputChange fieldId value);
                   reading := reading s |}
      else None
  | SubmitForm =>
      if canSubmit (app s) then Some s else None
  end.

Fixpoint run (s : Session) (events : list Event) : option Session :=
  match events with
  | [] => Some s
  | e :: rest =>
      match fire s e with
      | Some s' => run s' rest
      | None => None
      end
  end.

Definition reachable (s : Session) : Prop :=
  exists events, run initialSession events = Some s.

End SessionSteps.

(** What every state of a session satisfies: every key of the value map is
    the id of a field that takes input, and every such id has an entry,
    except [__proto__], which the seeding of [parseXml] cannot create; an
    entry that is not empty belongs to a field with an enabled control; and
    the error is one of the messages that a click on the enabled button can
    produce. *)
Definition sessionInvariant (st : AppState) : Prop :=
  match formData st with
  | None => formValues st = ∅
  | Some data =>
      FormField data <> [] /\
      (forall k, is_Some (formValues st !! k) ->
         exists f, In f (FormField data) /\ editable f = true /\ Id f = k) /\
      (forall f, In f (FormField data) -> editable f = true ->
         Id f <> "__proto__" -> is_Some (formValues st !! Id f))
  end /\
  (forall k v, formValues st !! k = Some v ->
     v = "" \/
     exists data f, formData st = Some data /\ In f (FormField data) /\
       editable f = true /\ hasControl (Type_ f) = true /\ Id f = k) /\
  (error st = None \/ error st = Some "Invalid XML file" \/
   error st = Some "No Field elements found in the XML" \/
   exists err, error st = Some ("Error parsing XML: " +:+ err)).

Definition staleErrorState : AppState :=
  {| xmlContent := scenarioA; formData := None;
     error := Some "Invalid XML file"; formValues := ∅ |}.

(** Sessions used in the examples: scenario A up to the text typed into f1;
    a text that is not well-formed, uploaded and submitted; and a form with
    one field that takes input and one that is display-only. *)
Definition scenarioEvents : list Event :=
  [ ChooseFile (Some scenarioA); ReadDone scenarioA; ClickGenerate;
    ChangeInput "f1" "hello" ].

Definition editedSession : Session :=
  {| app := {| xmlContent := scenarioA; formData := Some scenarioForm;
               error := None; formValues := {[ "f1" := "hello" ]} |};
     reading := [] |}.

Definition failedSession : Session :=
  {| app := {| xmlContent := "<notxml"; formData := None;
               error := Some "Invalid XML file"; formValues := ∅ |};
     reading := [] |}.

Definition mixedXml : string :=
  "<Form><Field><Id>f1</Id><Type>Text</Type><Visible>true</Visible></Field><Field><Id>ro</Id><Type>Text</Type><Visible>true</Visible><DisplayOnly>true</DisplayOnly></Field></Form>".

Definition readOnlyField : Field :=
  mkField "ro" "" "Text" [] true false true "".

Definition mixedForm : FormData :=
  {| FormField :=
       [mkField "f1" "" "Text" [] true false false ""; readOnlyField] |}.

(** A form whose only field is display-only and has the id [toString]; a
    form with two fields that take input under the same id; and a form whose
    only field takes input under the id [__proto__]. *)
Definition inheritedIdXml : string :=
  "<Form><Field><Id>toString</Id><Type>Text</Type><Visible>true</Visible><DisplayOnly>true</DisplayOnly></Field></Form>".

Definition inheritedIdField : Field :=
  mkField "toString" "" "Text" [] true false true "".

Definition duplicateIdXml : string :=
  "<Form><Field><Id>a</Id><Type>Text</Type><Visible>true</Visible></Field><Field><Id>a</Id><Type>Number</Type><Visible>true</Visible></Field></Form>".

Definition protoIdXml : string :=
  "<Form><Field><Id>__proto__</Id><Type>Text</Type><Visible>true</Visible></Field></Form>".

Definition protoIdField : Field :=
  mkField "__proto__" "" "Text" [] true false false "".

Definition mixedSession : Session :=
  {| app := {| xmlContent := mixedXml; formData := Some mixedForm;
               error := None; formValues := {[ "f1" := "hello" ]} |};
     reading := [] |}.

(** * Properties *)

(** ** Basic facts *)

Lemma orEmpty_Some s : orEmpty (Some s) = s.
Proof. by destruct s. Qed.

Lemma orEmpty_default x : orEmpty x = default "" x.
Proof. destruct x as [s|]; [apply orEmpty_Some | done]. Qed.

Lemma truthy_false s : truthy s = false <-> s = "".
Proof. destruct s; simpl; split; congruence. Qed.

Lemma truthy_true s : truthy s = true <-> s <> "".
Proof. destruct s; simpl; split; congruence. Qed.

Lemma string_app_cons x (a b : string) : String x a +:+ b = String x (a +:+ b).
Proof. reflexivity. Qed.

Lemma string_app_assoc (a b c : string) : (a +:+ b) +:+ c = a +:+ (b +:+ c).
Proof.
  induction a as [|x a IH]; [done|].
  by rewrite !string_app_cons, IH.
Qed.

Lemma string_app_nil_r (a : string) : a +:+ "" = a.
Proof.
  induction a as [|x a IH]; [done|].
  by rewrite string_app_cons, IH.
Qed.

Lemma fold_left_pushField elems acc :
  fold_left pushField elems acc = acc ++ map parseFieldElement elems.
Proof.
  revert acc. induction elems as [|e elems IH]; intros acc; simpl.
  - by rewrite app_nil_r.
  - rewrite IH. unfold pushField. by rewrite <- app_assoc.
Qed.

Lemma fold_left_pushItem items acc :
  fold_left pushItem items acc
  = acc ++ List.filter truthy (map textContent items).
Proof.
  revert acc. induction items as [|i items IH]; intros acc; simpl.
  - by rewrite app_nil_r.
  - rewrite IH. unfold pushItem. rewrite orEmpty_Some.
    destruct (truthy (textContent i)); [by rewrite <- app_assoc | done].
Qed.

(** The trees used below are what the parser of the fragment builds from the
    corresponding XML text. *)
Example example_fields_parse :
  MiniDOM.parseDocument "<Field><Id> f1 </Id></Field>"
  = Some {| documentChildNodes := [paddedField] |} /\
  MiniDOM.parseDocument
    "<Field><Group><Id>g</Id></Group><Id>f1</Id></Field>"
  = Some {| documentChildNodes := [nestedIdField] |} /\
  MiniDOM.parseDocument
    "<Field><Id>f1</Id><Group><Visible>true</Visible></Group></Field>"
  = Some {| documentChildNodes := [nestedVisibleField] |} /\
  MiniDOM.parseDocument "<Field><Visible>True</Visible></Field>"
  = Some {| documentChildNodes := [capitalTrueField] |} /\
  MiniDOM.parseDocument "<Field><List><Item></Item><Item>A</Item></List></Field>"
  = Some {| documentChildNodes := [emptyItemField] |}.
Proof. repeat split. Qed.

(** Scenarios B and C and property P6 of the specification. *)
Example scenarios_fail :
  @parseXml MiniDOM.parser (stateWith "")
  = [SetError (Some "Please upload an XML file first")] /\
  @parseXml MiniDOM.parser (stateWith "<notxml")
  = [SetError (Some "Invalid XML file")] /\
  @parseXml MiniDOM.parser (stateWith "<Form><Other>x</Other></Form>")
  = [SetError (Some "No Field elements found in the XML")].
Proof. repeat split. Qed.

(** ** parseXml, branch by branch *)

Section ParseXmlFacts.
Context `{parser : DOMParser}.

Lemma parseXml_unfold st :
  parseXml st =
  if truthy (xmlContent st) then
    match parseFromString (xmlContent st) "text/xml" with
    | Raise err => [SetError (Some ("Error parsing XML: " +:+ err))]
    | Value doc =>
        match getElementsByTagName "parsererror" (documentChildNodes doc) with
        | _ :: _ => [SetError (Some "Invalid XML file")]
        | [] =>
            match getElementsByTagName "Field" (documentChildNodes doc) with
            | [] => [SetError (Some "No Field elements found in the XML")]
            | elems =>
                let fields := map parseFieldElement elems in
                [SetFormData (Some {| FormField := fields |});
                 SetFormValues (fold_left seedValue fields ∅)]
            end
        end
    end
  else [SetError (Some "Please upload an XML file first")].
Proof.
  unfold parseXml. destruct (truthy (xmlContent st)); [|done].
  destruct (parseFromString (xmlContent st) "text/xml") as [doc|err]; [|done].
  cbn -[getElementsByTagName fold_left String.append].
  destruct (getElementsByTagName "parsererror" (documentChildNodes doc))
    as [|pe pes]; [|done].
  cbn -[getElementsByTagName fold_left String.append].
  destruct (getElementsByTagName "Field" (documentChildNodes doc))
    as [|e es]; [done|].
  rewrite fold_left_pushField. done.
Qed.

Lemma parseXml_cases st :
  let xml := xmlContent st in
  let us := parseXml st in
  (xml = "" /\ us = [SetError (Some "Please upload an XML file first")]) \/
  (xml <> "" /\ exists err, parseFromString xml "text/xml" = Raise err /\
     us = [SetError (Some ("Error parsing XML: " +:+ err))]) \/
  (xml <> "" /\ exists doc, parseFromString xml "text/xml" = Value doc /\
     getElementsByTagName "parsererror" (documentChildNodes doc) <> [] /\
     us = [SetError (Some "Invalid XML file")]) \/
  (xml <> "" /\ exists doc, parseFromString xml "text/xml" = Value doc /\
     getElementsByTagName "parsererror" (documentChildNodes doc) = [] /\
     getElementsByTagName "Field" (documentChildNodes doc) = [] /\
     us = [SetError (Some "No Field elements found in the XML")]) \/
  (xml <> "" /\ exists doc, parseFromString xml "text/xml" = Value doc /\
     getElementsByTagName "parsererror" (documentChildNodes doc) = [] /\
     getElementsByTagName "Field" (documentChildNodes doc) <> [] /\
     us = [SetFormData (Some {| FormField := map parseFieldElement
             (getElementsByTagName "Field" (documentChildNodes doc)) |});
           SetFormValues (fold_left seedValue (map parseFieldElement
             (getElementsByTagName "Field" (documentChildNodes doc))) ∅)]).
Proof.
  intros xml us. subst us. rewrite parseXml_unfold. fold xml.
  destruct (truthy xml) eqn:Hxml.
  2:{ left. by apply truthy_false in Hxml. }
  apply truthy_true in Hxml. right.
  destruct (parseFromString xml "text/xml") as [doc|err] eqn:Hdoc.
  2:{ left. eauto. }
  right.
  destruct (getElementsByTagName "parsererror" (documentChildNodes doc))
    as [|pe pes] eqn:Hpe.
  2:{ left. split; [done|]. exists doc. rewrite Hpe. done. }
  right.
  destruct (getElementsByTagName "Field" (documentChildNodes doc))
    as [|e es] eqn:Hfs.
  - left. split; [done|]. exists doc. by rewrite Hpe, Hfs.
  - right. split; [done|]. exists doc. by rewrite Hpe, Hfs.
Qed.

(** What a successful run says about the text and the document. *)
Lemma generated_inv st fields values :
  generated fields values (parseXml st) ->
  xmlContent st <> "" /\
  exists doc, parseFromString (xmlContent st) "text/xml" = Value doc /\
    getElementsByTagName "parsererror" (documentChildNodes doc) = [] /\
    getElementsByTagName "Field" (documentChildNodes doc) <> [] /\
    fields = map parseFieldElement
               (getElementsByTagName "Field" (documentChildNodes doc)) /\
    values = fold_left seedValue fields ∅.
Proof.
  unfold generated.
  destruct (parseXml_cases st) as [(Hx & ->) | [(Hx & err & He & ->)
    | [(Hx & doc & Hd & Hpe & ->) | [(Hx & doc & Hd & Hpe & Hfs & ->)
    | (Hx & doc & Hd & Hpe & Hfs & ->)]]]]; try discriminate.
  intros [= <- <-]. split; [done|]. exists doc. by repeat split.
Qed.

(** A parsererror element in the document is all it takes. *)
Lemma malformed_intro st doc :
  xmlContent st <> "" ->
  parseFromString (xmlContent st) "text/xml" = Value doc ->
  getElementsByTagName "parsererror" (documentChildNodes doc) <> [] ->
  failedWith Malformed (parseXml st).
Proof.
  intros Hne Hdoc Hpe. rewrite parseXml_unfold.
  apply truthy_true in Hne. rewrite Hne, Hdoc.
  destruct (getElementsByTagName "parsererror" (documentChildNodes doc));
    [done|].
  exists "Invalid XML file". by split.
Qed.

End ParseXmlFacts.

Lemma failedWith_single e message :
  failedWith e [SetError (Some message)] <-> reportedAs e message = true.
Proof.
  split.
  - intros (m & [= ->] & Hm). exact Hm.
  - intros Hm. exists message. by split.
Qed.

Lemma failedWith_two e u1 u2 : ~ failedWith e [u1; u2].
Proof. intros (m & Hm & _). discriminate. Qed.

Lemma reportedAs_unexpected e err :
  reportedAs e ("Error parsing XML: " +:+ err) = false.
Proof. destruct e; reflexivity. Qed.

(** Break a goal about the outcome of a run into its atomic parts, and
    evaluate the comparisons of error messages met on the way. *)
Ltac break_outcome :=
  repeat match goal with
         | |- _ /\ _ => split
         | |- _ <-> _ => split
         | |- _ -> _ => intro
         | |- forall _ : Document, _ => intro
         | |- forall _ : string, _ => intro
         | |- forall _ : list Field, _ => intro
         | |- forall _ : gmap string string, _ => intro
         | H : _ /\ _ |- _ => destruct H
         | H : exists _, _ |- _ => destruct H
         | H : (_ =? _)%string = true |- _ => vm_compute in H
         | H : (_ =? _)%string || (_ =? _)%string = true |- _ =>
             vm_compute in H
         end.

Section ParseXmlOutcomes.
Context `{parser : DOMParser}.

(** C1 (as amended).  [parseXml] fails with Empty exactly on the empty text;
    with Malformed exactly when the text is not empty and the document the
    parser returned holds an element named parsererror, which is so whenever
    the parser reports a well-formedness error; with NoFields exactly when the
    document holds no parsererror and no Field element; and it succeeds
    exactly when the document holds no parsererror and at least one Field,
    with one descriptor per Field element in document order.  When the
    parser raises an exception instead of returning a document, the error
    set is the generic one that carries the description of the exception. *)
Theorem parseXml_outcomes (st : AppState) :
  let xml := xmlContent st in
  let us := parseXml st in
  (failedWith Empty us <-> xml = "") /\
  (failedWith Malformed us <->
     xml <> "" /\
     exists doc, parseFromString xml "text/xml" = Value doc /\
       getElementsByTagName "parsererror" (documentChildNodes doc) <> []) /\
  (failedWith NoFields us <->
     xml <> "" /\
     exists doc, parseFromString xml "text/xml" = Value doc /\
       getElementsByTagName "parsererror" (documentChildNodes doc) = [] /\
       getElementsByTagName "Field" (documentChildNodes doc) = []) /\
  (forall fields values, generated fields values us <->
     xml <> "" /\
     exists doc, parseFromString xml "text/xml" = Value doc /\
       getElementsByTagName "parsererror" (documentChildNodes doc) = [] /\
       getElementsByTagName "Field" (documentChildNodes doc) <> [] /\
       fields = map parseFieldElement
                  (getElementsByTagName "Field" (documentChildNodes doc)) /\
       values = fold_left seedValue fields ∅) /\
  (forall doc, xml <> "" ->
     parseFromString xml "text/xml" = Value doc ->
     reportsError xml = true -> failedWith Malformed us) /\
  (forall err, xml <> "" ->
     parseFromString xml "text/xml" = Raise err ->
     us = [SetError (Some ("Error parsing XML: " +:+ err))]).
Proof.
  intros xml us.
  pose proof (parseXml_cases st) as Hcases. cbv zeta in Hcases.
  fold xml in Hcases. fold us in Hcases.
  clearbody us.
  destruct Hcases as [(Hx & ->) | [(Hx & err & He & ->) | [(Hx & doc & Hd & Hpe & ->)
    | [(Hx & doc & Hd & Hpe & Hfs & ->) | (Hx & doc & Hd & Hpe & Hfs & ->)]]]].
  all: rewrite ?failedWith_single, ?reportedAs_unexpected.
  all: unfold generated; cbn [reportedAs].
  all: assert (Hlaw := parsererror_reported xml).
  all: break_outcome.
  all: try done.
  all: try congruence.
  all: try (eexists; split; [eassumption|]; done).
  all: try (apply failedWith_single; reflexivity).
  all: try (exfalso; simplify_eq; eapply Hlaw; eauto; fail).
  all: try (simplify_eq; done).
  all: try (simplify_eq; eexists; repeat split; eauto; fail).
  all: try (exfalso; by apply (Hlaw doc Hd)).
  all: exfalso; eapply failedWith_two; eassumption.
Qed.

End ParseXmlOutcomes.

(** Scenario C of the specification: an unterminated tag is reported by the
    parser and [parseXml] fails with Malformed. *)
Lemma parseXml_outcomes_witness :
  failedWith Malformed (@parseXml MiniDOM.parser (stateWith "<notxml")).
Proof.
  apply (proj1 (proj2 (proj2 (proj2 (proj2
           (@parseXml_outcomes MiniDOM.parser (stateWith "<notxml"))))))
           MiniDOM.errorDocument);
    [ discriminate | reflexivity | reflexivity ].
Defined.

(** C1 (as stated) fails.  The text [shadowedXml] is well-formed, the parser
    reports no error on it, and yet [parseXml] fails with Malformed: failing
    with Malformed is not equivalent to the parser reporting an error. *)
Lemma parseXml_malformed_without_report :
  ~ (failedWith Malformed (@parseXml MiniDOM.parser (stateWith shadowedXml))
     <-> @reportsError MiniDOM.parser (xmlContent (stateWith shadowedXml))
         = true).
Proof.
  intros [Hreported _].
  assert (Hfails :
    failedWith Malformed (@parseXml MiniDOM.parser (stateWith shadowedXml))).
  { exists "Invalid XML file". split; reflexivity. }
  apply Hreported in Hfails. vm_compute in Hfails. discriminate.
Qed.

(** C10.  A well-formed text with Field elements on which [parseXml] fails
    with Malformed exists ([shadowedXml]); and in general, whatever the parser
    reports, [parseXml] fails with Malformed on every non-empty text whose
    document holds an element named parsererror, because that element is the
    only thing it looks for. *)
Theorem parsererror_element_is_malformed :
  (@reportsError MiniDOM.parser shadowedXml = false /\
   (exists doc,
      @parseFromString MiniDOM.parser shadowedXml "text/xml" = Value doc /\
      getElementsByTagName "Field" (documentChildNodes doc) <> []) /\
   failedWith Malformed (@parseXml MiniDOM.parser (stateWith shadowedXml))) /\
  (forall (parser : DOMParser) (st : AppState) (doc : Document),
     xmlContent st <> "" ->
     parseFromString (xmlContent st) "text/xml" = Value doc ->
     getElementsByTagName "parsererror" (documentChildNodes doc) <> [] ->
     failedWith Malformed (parseXml st)).
Proof.
  split.
  - split; [reflexivity|]. split.
    + eexists. split; [reflexivity|]. discriminate.
    + exists "Invalid XML file". split; reflexivity.
  - intros parser st doc. apply malformed_intro.
Qed.

(** The general clause at [shadowedXml]. *)
Lemma parsererror_element_is_malformed_witness :
  failedWith Malformed (@parseXml MiniDOM.parser (stateWith shadowedXml)).
Proof.
  eapply (proj2 parsererror_element_is_malformed MiniDOM.parser
            (stateWith shadowedXml));
    [ discriminate | reflexivity | discriminate ].
Defined.

(** ** A failed parse leaves the form alone *)

Lemma parseXml_failed_or_generated `{parser : DOMParser} (st : AppState) :
  failed (parseXml st) \/
  exists fields values, generated fields values (parseXml st).
Proof.
  rewrite parseXml_unfold.
  destruct (truthy (xmlContent st)); [|left; by eexists].
  destruct (parseFromString (xmlContent st) "text/xml") as [doc|err];
    [|left; by eexists].
  destruct (getElementsByTagName "parsererror" (documentChildNodes doc));
    [|left; by eexists].
  destruct (getElementsByTagName "Field" (documentChildNodes doc));
    [left; by eexists|].
  right. by do 2 eexists.
Qed.

(** C7.  When [parseXml] does not succeed, whatever the reason (the empty
    text, a parsererror element, no Field element, an exception raised by the
    parser), all it does is to set the error: the form model and the value
    map of the next render are those of the current one. *)
Theorem failed_parse_keeps_form `{parser : DOMParser} (st : AppState) :
  (forall fields values, ~ generated fields values (parseXml st)) ->
  failed (parseXml st) /\
  formData (applyUpdates st (parseXml st)) = formData st /\
  formValues (applyUpdates st (parseXml st)) = formValues st.
Proof.
  intros Hnot.
  destruct (parseXml_failed_or_generated st) as [Hf | (fs & vs & Hg)].
  - split; [exact Hf|]. destruct Hf as (message & ->). by split.
  - destruct (Hnot fs vs Hg).
Qed.

(** A form is on screen, the user has typed hello into f1, and a text that is
    not well-formed is submitted: the form and the value stay. *)
Lemma failed_parse_keeps_form_witness :
  let st := stateAfterEdit "<notxml" in
  (forall fields values,
     ~ generated fields values (@parseXml MiniDOM.parser st)) /\
  failed (@parseXml MiniDOM.parser st) /\
  formData (applyUpdates st (@parseXml MiniDOM.parser st)) = Some previousForm /\
  formValues (applyUpdates st (@parseXml MiniDOM.parser st))
  = {[ "f1" := "hello" ]}.
Proof.
  assert (Hnot : forall fields values,
    ~ generated fields values
        (@parseXml MiniDOM.parser (stateAfterEdit "<notxml"))).
  { intros fields values. vm_compute. discriminate. }
  split; [exact Hnot|].
  exact (@failed_parse_keeps_form MiniDOM.parser (stateAfterEdit "<notxml") Hnot).
Defined.

(** ** The initial value map *)

Lemma setProp_lookup key value obj k :
  obj !! "__proto__" = None ->
  setProp key value obj !! k
  = if String.eqb key k && negb (String.eqb k "__proto__")
    then Some value else obj !! k.
Proof.
  intros Hproto. unfold setProp.
  destruct (String.eqb_spec key k) as [->|Hne]; cbn [andb].
  - destruct (String.eqb_spec k "__proto__") as [->|Hk]; cbn [negb].
    + by rewrite Hproto.
    + destruct (obj !! k); by rewrite lookup_insert_eq.
  - destruct (obj !! key), (String.eqb key "__proto__");
      by rewrite ?lookup_insert_ne.
Qed.

Lemma seedValue_lookup field m k :
  m !! "__proto__" = None ->
  seedValue m field !! k
  = if editable field && String.eqb (Id field) k
       && negb (String.eqb k "__proto__")
    then Some "" else m !! k.
Proof.
  intros Hproto. unfold seedValue, editable.
  destruct (Visible field && negb (DisplayOnly field)); [|done].
  by rewrite setProp_lookup.
Qed.

Lemma fold_seedValue_lookup fields m k :
  m !! "__proto__" = None ->
  fold_left seedValue fields m !! k
  = if existsb (fun f => editable f && String.eqb (Id f) k) fields
       && negb (String.eqb k "__proto__")
    then Some "" else m !! k.
Proof.
  revert m. induction fields as [|f fields IH]; intros m Hproto; simpl; [done|].
  rewrite IH.
  2:{ rewrite seedValue_lookup by done. cbn. by rewrite andb_false_r. }
  rewrite seedValue_lookup by done.
  destruct (editable f && String.eqb (Id f) k); simpl; [|done].
  destruct (String.eqb k "__proto__"); simpl; [by rewrite andb_false_r|].
  by destruct (existsb _ fields).
Qed.

Lemma existsb_editable_id fields k :
  existsb (fun f => editable f && String.eqb (Id f) k) fields = true
  <-> exists f, In f fields /\ editable f = true /\ Id f = k.
Proof.
  rewrite existsb_exists. split.
  - intros (f & Hin & Hf). apply andb_true_iff in Hf as [He Hk].
    apply String.eqb_eq in Hk. eauto.
  - intros (f & Hin & He & Hk). exists f. split; [done|].
    apply andb_true_iff. split; [done|]. by apply String.eqb_eq.
Qed.

(** The entries of the seeded map: the empty string under the id of every
    field that takes input, except under [__proto__]. *)
Lemma seeded_lookup fields k :
  fold_left seedValue fields ∅ !! k
  = if existsb (fun f => editable f && String.eqb (Id f) k) fields
       && negb (String.eqb k "__proto__")
    then Some "" else None.
Proof. by rewrite fold_seedValue_lookup, lookup_empty. Qed.

Lemma seeded_Some fields k v :
  fold_left seedValue fields ∅ !! k = Some v ->
  v = "" /\ k <> "__proto__" /\
  exists f, In f fields /\ editable f = true /\ Id f = k.
Proof.
  rewrite seeded_lookup.
  destruct (existsb _ fields) eqn:Hex; [|done].
  destruct (String.eqb_spec k "__proto__") as [->|Hk]; [done|].
  intros [= <-]. split; [done|]. split; [done|].
  by apply existsb_editable_id.
Qed.

Lemma seeded_editable fields f :
  In f fields -> editable f = true -> Id f <> "__proto__" ->
  fold_left seedValue fields ∅ !! Id f = Some "".
Proof.
  intros Hin He Hk. rewrite seeded_lookup.
  assert (Hex : existsb (fun g => editable g && String.eqb (Id g) (Id f))
                  fields = true)
    by (apply existsb_editable_id; eauto).
  rewrite Hex. by rewrite (proj2 (String.eqb_neq _ _) Hk).
Qed.

Lemma fold_seedValue_dom fields :
  dom (fold_left seedValue fields ∅)
  = list_to_set
      (List.filter (fun k => negb (String.eqb k "__proto__"))
         (map Id (List.filter editable fields))).
Proof.
  apply set_eq. intros k.
  rewrite elem_of_dom, elem_of_list_to_set, list_elem_of_In, filter_In,
    in_map_iff.
  split.
  - intros [v Hv]. apply seeded_Some in Hv as (_ & Hk & f & Hin & He & <-).
    split.
    + exists f. split; [done|]. apply filter_In. by split.
    + by rewrite (proj2 (String.eqb_neq _ _) Hk).
  - intros [(f & <- & Hf) Hk]. apply filter_In in Hf as [Hin He].
    exists "". apply seeded_editable; [done..|].
    intros Heq. by rewrite Heq in Hk.
Qed.

Lemma size_list_to_set_remove_dups (l : list string) :
  size (list_to_set (C := gset string) l) = length (remove_dups l).
Proof.
  rewrite <- (size_list_to_set (C := gset string) (remove_dups l))
    by apply NoDup_remove_dups.
  f_equal. apply set_eq. intros k.
  by rewrite !elem_of_list_to_set, elem_of_remove_dups.
Qed.

Lemma filter_id {A} (p : A -> bool) (l : list A) :
  (forall a, In a l -> p a = true) -> List.filter p l = l.
Proof.
  intros Hp. apply forallb_filter_id, forallb_forall. exact Hp.
Qed.

(** Two fields that take input under the same id share one entry: the
    parser does not reject duplicate ids. *)
Example duplicate_ids_share_entry :
  let f := mkField "a" "" "Text" [] true false false "" in
  fold_left seedValue [f; f] ∅ = {[ "a" := "" ]}.
Proof. vm_compute. reflexivity. Qed.

(** The assignment under [__proto__] creates no entry: a form whose only
    field takes input under that id starts with the empty map. *)
Example proto_id_not_seeded :
  generated [protoIdField] ∅ (@parseXml MiniDOM.parser (stateWith protoIdXml)).
Proof. vm_compute. reflexivity. Qed.

(** C6 (as stated) fails: the form of [duplicateIdXml] has two fields that
    take input, and its value map has one entry. *)
Lemma one_entry_for_two_fields :
  ~ (forall fields values,
       generated fields values
         (@parseXml MiniDOM.parser (stateWith duplicateIdXml)) ->
       size values = length (List.filter editable fields)).
Proof.
  intros Hclaim.
  assert (Hgen : generated
    [ mkField "a" "" "Text" [] true false false "";
      mkField "a" "" "Number" [] true false false "" ] {[ "a" := "" ]}
    (@parseXml MiniDOM.parser (stateWith duplicateIdXml))).
  { vm_compute. reflexivity. }
  specialize (Hclaim _ _ Hgen). rewrite map_size_singleton in Hclaim.
  discriminate Hclaim.
Qed.

(** C6 (as amended).  After a successful parse the value map of the next
    render is the seeded one.  It maps the id of every visible field that is
    not display-only, when that id is not [__proto__], to the empty string,
    and it has no other key: every key is the id of such a field.  When no
    such field has the id [__proto__], its keys are exactly the ids of those
    fields, one entry for each distinct id: fields that share an id share
    one entry. *)
Theorem initial_values_seeded `{parser : DOMParser} (st : AppState)
    (fields : list Field) (values : gmap string string) :
  generated fields values (parseXml st) ->
  formValues (applyUpdates st (parseXml st)) = values /\
  (forall f, In f fields -> Visible f = true -> DisplayOnly f = false ->
     Id f <> "__proto__" -> values !! Id f = Some "") /\
  (forall k v, values !! k = Some v ->
     v = "" /\
     exists f, In f fields /\ Visible f = true /\ DisplayOnly f = false /\
       Id f = k) /\
  ((forall f, In f fields -> editable f = true -> Id f <> "__proto__") ->
   dom values = list_to_set (map Id (List.filter editable fields)) /\
   size values = length (remove_dups (map Id (List.filter editable fields)))).
Proof.
  intros Hgen.
  assert (Hvalues : values = fold_left seedValue fields ∅).
  { apply generated_inv in Hgen as (_ & doc & _ & _ & _ & _ & Hv). exact Hv. }
  split; [by rewrite Hgen|]. subst values.
  split; [|split].
  - intros f Hin Hv Hd Hk. apply seeded_editable; [done| |done].
    unfold editable. by rewrite Hv, Hd.
  - intros k v Hkv. apply seeded_Some in Hkv as (-> & _ & f & Hin & He & Hk).
    split; [done|].
    unfold editable in He. apply andb_true_iff in He as [Hv Hd].
    apply negb_true_iff in Hd. eauto 6.
  - intros Hproto.
    assert (Hdom : dom (fold_left seedValue fields ∅)
              = list_to_set (map Id (List.filter editable fields))).
    { rewrite fold_seedValue_dom. f_equal. apply filter_id.
      intros k Hk. apply in_map_iff in Hk as (f & <- & Hf).
      apply filter_In in Hf as [Hin He].
      by rewrite (proj2 (String.eqb_neq _ _) (Hproto f Hin He)). }
    split; [exact Hdom|].
    by rewrite <- size_dom, Hdom, size_list_to_set_remove_dups.
Qed.

(** Scenario A of the specification: one editable field f1, seeded with the
    empty string. *)
Lemma initial_values_seeded_witness :
  let st := stateWith scenarioA in
  let f1 := {| Id := "f1"; Label := ""; Type_ := "Text"; ListItem := [];
               Visible := true; Mandatory := true; DisplayOnly := false;
               Comment := "" |} in
  generated [f1] {[ "f1" := "" ]} (@parseXml MiniDOM.parser st) /\
  formValues (applyUpdates st (@parseXml MiniDOM.parser st))
  = {[ "f1" := "" ]}.
Proof.
  assert (Hgen : generated
    [ {| Id := "f1"; Label := ""; Type_ := "Text"; ListItem := [];
         Visible := true; Mandatory := true; DisplayOnly := false;
         Comment := "" |} ] {[ "f1" := "" ]}
    (@parseXml MiniDOM.parser (stateWith scenarioA))).
  { vm_compute. reflexivity. }
  split; [exact Hgen|].
  exact (proj1 (@initial_values_seeded MiniDOM.parser _ _ _ Hgen)).
Defined.

(** X18.  The seeding of [parseXml] cannot create the key [__proto__]: after
    a successful parse the keys of the value map are exactly the ids, other
    than [__proto__], of the visible fields that are not display-only, and a
    read of the map under [__proto__] finds the inherited accessor.  Under
    every other id of such a field, also one that names a method of
    [Object.prototype], the map has the empty string. *)
Theorem seeded_keys_exact `{parser : DOMParser} (st : AppState)
    (fields : list Field) (values : gmap string string) :
  generated fields values (parseXml st) ->
  dom values
  = list_to_set
      (List.filter (fun k => negb (String.eqb k "__proto__"))
         (map Id (List.filter editable fields))) /\
  values !! "__proto__" = None /\
  getProp values "__proto__" = JSInherited "__proto__" /\
  (forall f, In f fields -> editable f = true -> Id f <> "__proto__" ->
     getProp values (Id f) = JSString "").
Proof.
  intros Hgen.
  apply generated_inv in Hgen as (_ & doc & _ & _ & _ & _ & ->).
  assert (Hproto : fold_left seedValue fields ∅ !! "__proto__" = None).
  { rewrite seeded_lookup. cbn. by rewrite andb_false_r. }
  split; [apply fold_seedValue_dom|]. split; [exact Hproto|]. split.
  - unfold getProp. by rewrite Hproto.
  - intros f Hin He Hk. unfold getProp. by rewrite seeded_editable.
Qed.

Lemma seeded_keys_exact_witness :
  generated [protoIdField] ∅
    (@parseXml MiniDOM.parser (stateWith protoIdXml)) /\
  getProp (∅ : gmap string string) "__proto__" = JSInherited "__proto__".
Proof.
  assert (Hgen : generated [protoIdField] ∅
    (@parseXml MiniDOM.parser (stateWith protoIdXml))).
  { vm_compute. reflexivity. }
  split; [exact Hgen|].
  exact (proj1 (proj2 (proj2 (@seeded_keys_exact MiniDOM.parser _ _ _ Hgen)))).
Defined.

(** ** One Field element *)

Lemma Node_nested_ind (P : Node -> Prop) :
  (forall t cs, Forall P cs -> P (Element t cs)) ->
  (forall d, P (Text d)) ->
  (forall d, P (CommentNode d)) ->
  forall n, P n.
Proof.
  intros Helem Htext Hcomment. fix IH 1.
  intros [t cs|d|d]; [apply Helem | apply Htext | apply Hcomment].
  induction cs as [|c cs IHcs]; constructor; [apply IH | exact IHcs].
Qed.

Lemma head_app_first {A} (l1 l2 : list A) :
  head (l1 ++ l2) = match head l1 with Some x => Some x | None => head l2 end.
Proof. by destruct l1. Qed.

Lemma firstInSubtree_element tag t cs :
  firstInSubtree tag (Element t cs)
  = if String.eqb t tag then Some (Element t cs) else firstDescendant tag cs.
Proof.
  simpl. destruct (String.eqb t tag); [done|].
  induction cs as [|c cs IH]; simpl; [done|].
  destruct (firstInSubtree tag c); [done | exact IH].
Qed.

Lemma head_matching_subtree tag n :
  head (List.filter (hasTagName tag) (inclusiveElements n))
  = firstInSubtree tag n.
Proof.
  induction n as [t cs IH|d|d] using Node_nested_ind; [|done|done].
  rewrite firstInSubtree_element.
  cbn [inclusiveElements List.filter hasTagName].
  destruct (String.eqb t tag); [done|].
  induction IH as [|c cs Hc _ IHcs]; [done|].
  cbn [flat_map firstDescendant].
  rewrite List.filter_app, head_app_first, Hc, IHcs. done.
Qed.

(** [collection[0]] of a tag search is the first element with that name in
    document order. *)
Lemma item0_getElementsByTagName tag children :
  item0 (getElementsByTagName tag children) = firstDescendant tag children.
Proof.
  unfold item0, getElementsByTagName.
  induction children as [|c cs IH]; [done|].
  cbn [flat_map firstDescendant].
  rewrite List.filter_app, head_app_first, head_matching_subtree, IH. done.
Qed.

Lemma firstTextContent_first tag field :
  firstTextContent tag field
  = textContent <$> firstDescendant tag (childNodes field).
Proof. unfold firstTextContent. by rewrite item0_getElementsByTagName. Qed.

Lemma collectListItems_first field :
  collectListItems field
  = match firstDescendant "List" (childNodes field) with
    | Some listElement =>
        List.filter truthy
          (map textContent
             (getElementsByTagName "Item" (childNodes listElement)))
    | None => []
    end.
Proof.
  unfold collectListItems. rewrite item0_getElementsByTagName.
  destruct (firstDescendant "List" (childNodes field)) as [l|]; [|done].
  rewrite fold_left_pushItem.
  destruct (getElementsByTagName "Item" (childNodes l)); done.
Qed.

Lemma filter_truthy_nonempty (l : list string) :
  List.filter truthy l
  = List.filter (fun text => negb (String.eqb text "")) l.
Proof. apply List.filter_ext. intros [|a s]; done. Qed.

Lemma listItems_with_list field listElement rest :
  getElementsByTagName "List" (childNodes field) = listElement :: rest ->
  ListItem (parseFieldElement field)
  = List.filter (fun text => negb (String.eqb text ""))
      (map textContent (getElementsByTagName "Item" (childNodes listElement))).
Proof.
  intros Hl. cbn [parseFieldElement ListItem].
  unfold collectListItems. rewrite Hl. cbn [item0 head].
  rewrite fold_left_pushItem, <- filter_truthy_nonempty.
  destruct (getElementsByTagName "Item" (childNodes listElement)); done.
Qed.

Lemma listItems_without_list field :
  getElementsByTagName "List" (childNodes field) = [] ->
  ListItem (parseFieldElement field) = [].
Proof.
  intros Hl. cbn [parseFieldElement ListItem].
  unfold collectListItems. by rewrite Hl.
Qed.

(** C9.  The list items of a Field element are the non-empty text contents of
    the Item elements below its first List element, in document order; an
    Item with empty text is skipped, and a Field with no List element has no
    list item. *)
Theorem listItems_of_first_list (field : Node) :
  (forall listElement rest,
     getElementsByTagName "List" (childNodes field) = listElement :: rest ->
     ListItem (parseFieldElement field)
     = List.filter (fun text => negb (String.eqb text ""))
         (map textContent
            (getElementsByTagName "Item" (childNodes listElement)))) /\
  (getElementsByTagName "List" (childNodes field) = [] ->
     ListItem (parseFieldElement field) = []) /\
  (forall text, In text (ListItem (parseFieldElement field)) -> text <> "").
Proof.
  split; [|split].
  - apply listItems_with_list.
  - apply listItems_without_list.
  - intros text. cbn [parseFieldElement ListItem].
    rewrite collectListItems_first.
    destruct (firstDescendant "List" (childNodes field)); [|done].
    intros Hin. apply filter_In in Hin as [_ Ht]. by apply truthy_true.
Qed.

(** Property P5 of the specification. *)
Lemma listItems_of_first_list_witness :
  ListItem (parseFieldElement emptyItemField) = ["A"].
Proof.
  exact (proj1 (listItems_of_first_list emptyItemField)
           (Element "List" [Element "Item" []; Element "Item" [Text "A"]])
           [] eq_refl).
Defined.

(** C8 (as stated) fails: the form model of [textFieldWithListXml] has a
    field of type Text whose list items are not empty. *)
Lemma text_field_keeps_list_items :
  ~ (forall fields values,
       generated fields values
         (@parseXml MiniDOM.parser (stateWith textFieldWithListXml)) ->
       forall f, In f fields -> Type_ f <> "Dropdown" -> ListItem f = []).
Proof.
  intros Hclaim.
  pose (f := {| Id := "c"; Label := ""; Type_ := "Text"; ListItem := ["A"];
                Visible := true; Mandatory := false; DisplayOnly := false;
                Comment := "" |}).
  assert (Hgen : generated [f] {[ "c" := "" ]}
    (@parseXml MiniDOM.parser (stateWith textFieldWithListXml))).
  { vm_compute. reflexivity. }
  specialize (Hclaim [f] _ Hgen f (or_introl eq_refl)).
  discriminate Hclaim. discriminate.
Qed.

(** C8 (as amended).  Every descriptor of a form model produced by the parser
    comes from a Field element of the document, and its list items are empty
    exactly when that element has no List element below it or the first such
    List has no Item with a non-empty text; the type of the field plays no
    part. *)
Theorem listItems_empty_iff `{parser : DOMParser} (st : AppState)
    (fields : list Field) (values : gmap string string) :
  generated fields values (parseXml st) ->
  forall f, In f fields ->
    exists doc field,
      parseFromString (xmlContent st) "text/xml" = Value doc /\
      In field (getElementsByTagName "Field" (documentChildNodes doc)) /\
      f = parseFieldElement field /\
      (ListItem f = [] <->
         match getElementsByTagName "List" (childNodes field) with
         | [] => True
         | listElement :: _ =>
             Forall (fun item => textContent item = "")
               (getElementsByTagName "Item" (childNodes listElement))
         end).
Proof.
  intros Hgen f Hin.
  apply generated_inv in Hgen as (_ & doc & Hdoc & _ & _ & -> & _).
  apply in_map_iff in Hin as (field & <- & Hfield).
  exists doc, field. repeat split; try done.
  - intros Hempty.
    destruct (getElementsByTagName "List" (childNodes field))
      as [|l rest] eqn:Hl; [done|].
    rewrite (listItems_with_list field l rest Hl) in Hempty.
    induction (getElementsByTagName "Item" (childNodes l)) as [|i items IH];
      [constructor|].
    simpl in Hempty. destruct (String.eqb_spec (textContent i) "") as [He|He];
      simpl in Hempty; [|done].
    constructor; [done | by apply IH].
  - destruct (getElementsByTagName "List" (childNodes field))
      as [|l rest] eqn:Hl.
    + intros _. by apply listItems_without_list.
    + intros Hall.
      rewrite (listItems_with_list field l rest Hl).
      induction Hall as [|i items Hi _ IH]; [done|].
      simpl. rewrite Hi. exact IH.
Qed.

(** The form of [textFieldWithListXml]: its only field comes from the Field
    element of the document, and its list items are not empty. *)
Lemma listItems_empty_iff_witness :
  let f := {| Id := "c"; Label := ""; Type_ := "Text"; ListItem := ["A"];
              Visible := true; Mandatory := false; DisplayOnly := false;
              Comment := "" |} in
  let st := stateWith textFieldWithListXml in
  generated [f] {[ "c" := "" ]} (@parseXml MiniDOM.parser st) /\
  exists doc field,
    @parseFromString MiniDOM.parser (xmlContent st) "text/xml" = Value doc /\
    In field (getElementsByTagName "Field" (documentChildNodes doc)) /\
    f = parseFieldElement field /\
    (ListItem f = [] <->
       match getElementsByTagName "List" (childNodes field) with
       | [] => True
       | listElement :: _ =>
           Forall (fun item => textContent item = "")
             (getElementsByTagName "Item" (childNodes listElement))
       end).
Proof.
  intros f st.
  assert (Hgen : generated [f] {[ "c" := "" ]} (@parseXml MiniDOM.parser st)).
  { vm_compute. reflexivity. }
  split; [exact Hgen|].
  exact (@listItems_empty_iff MiniDOM.parser st [f] {[ "c" := "" ]} Hgen f
           (or_introl eq_refl)).
Defined.

(** C4 (as stated) fails twice.  The text of [paddedField]'s Id is stored with
    the blanks around it, not trimmed; and the Id of [nestedIdField] is taken
    from an element that is not a child of the Field, ahead of the Id that
    is. *)
Lemma extracted_text_not_trimmed_child :
  Id (parseFieldElement paddedField) <> trimmedChildText "Id" paddedField /\
  Id (parseFieldElement nestedIdField) <> trimmedChildText "Id" nestedIdField.
Proof. split; vm_compute; discriminate. Qed.

(** C4 (as amended).  For every Field element and every tag, the element the
    parser reads is the first element with that name below the Field in
    document order, at any depth, whatever follows it; Id, Label, Type and
    Comment are its text content as it stands, not trimmed, and the empty
    string when there is no such element; the text compared for Visible,
    Mandatory and DisplayOnly is that text content, not trimmed either. *)
Theorem extracted_text_is_first_match (field : Node) :
  (forall tag,
     item0 (getElementsByTagName tag (childNodes field))
     = firstDescendant tag (childNodes field)) /\
  (forall tag first rest,
     getElementsByTagName tag (childNodes field) = first :: rest ->
     firstTextContent tag field = Some (textContent first)) /\
  (forall tag,
     getElementsByTagName tag (childNodes field) = [] ->
     firstTextContent tag field = None) /\
  Id (parseFieldElement field)
    = default "" (firstTextContent "Id" field) /\
  Label (parseFieldElement field)
    = default "" (firstTextContent "Label" field) /\
  Type_ (parseFieldElement field)
    = default "" (firstTextContent "Type" field) /\
  Comment (parseFieldElement field)
    = default "" (firstTextContent "Comment" field) /\
  Visible (parseFieldElement field)
    = bool_decide (firstTextContent "Visible" field = Some "true") /\
  Mandatory (parseFieldElement field)
    = bool_decide (firstTextContent "Mandatory" field = Some "true") /\
  DisplayOnly (parseFieldElement field)
    = bool_decide (firstTextContent "DisplayOnly" field = Some "true").
Proof.
  assert (Hstrict : forall x : option string,
    strictEqTrue x = bool_decide (x = Some "true")).
  { intros [s|]; simpl; [|done].
    destruct (String.eqb_spec s "true") as [->|Hne].
    - by rewrite bool_decide_eq_true_2.
    - rewrite bool_decide_eq_false_2; [done|]. congruence. }
  cbn [parseFieldElement Id Label Type_ Comment Visible Mandatory DisplayOnly].
  rewrite !orEmpty_default, !Hstrict.
  split; [intros tag; apply item0_getElementsByTagName|].
  split; [intros tag first rest H; unfold firstTextContent; by rewrite H|].
  split; [intros tag H; unfold firstTextContent; by rewrite H|].
  done.
Qed.

(** The two Field elements of the counterexample: the text is kept with its
    blanks, and the nested Id comes first. *)
Lemma extracted_text_is_first_match_witness :
  firstTextContent "Id" paddedField = Some " f1 " /\
  firstTextContent "Id" nestedIdField = Some "g".
Proof.
  split.
  - exact (proj1 (proj2 (extracted_text_is_first_match paddedField))
             "Id" (Element "Id" [Text " f1 "]) [] eq_refl).
  - exact (proj1 (proj2 (extracted_text_is_first_match nestedIdField))
             "Id" (Element "Id" [Text "g"]) [Element "Id" [Text "f1"]]
             eq_refl).
Defined.

(** C5 (as stated) fails: [nestedVisibleField] has no child element named
    Visible, and it is parsed as visible. *)
Lemma visible_without_visible_child :
  ~ (Visible (parseFieldElement nestedVisibleField) = true <->
     exists c, head (childrenByTagName "Visible" nestedVisibleField) = Some c /\
       textContent c = "true").
Proof.
  intros [Hchild _].
  destruct (Hchild eq_refl) as (c & Hc & _). discriminate.
Qed.

Lemma strictEqTrue_first tag field :
  strictEqTrue (firstTextContent tag field) = true <->
  exists c, firstDescendant tag (childNodes field) = Some c /\
    textContent c = "true".
Proof.
  rewrite firstTextContent_first.
  destruct (firstDescendant tag (childNodes field)) as [c|]; simpl.
  - rewrite String.eqb_eq. split; [eauto|]. by intros (c' & [= <-] & H).
  - split; [done|]. by intros (c' & [=] & _).
Qed.

(** C5 (as amended).  Each of the three booleans of a Field element is true
    exactly when the first element with the corresponding name below the
    Field, at any depth, has the text content [true], compared as it stands
    and case-sensitively; with no such element, or with any other text such
    as [True], the boolean is false. *)
Theorem booleans_strictly_true (field : Node) :
  (Visible (parseFieldElement field) = true <->
     exists c, firstDescendant "Visible" (childNodes field) = Some c /\
       textContent c = "true") /\
  (Mandatory (parseFieldElement field) = true <->
     exists c, firstDescendant "Mandatory" (childNodes field) = Some c /\
       textContent c = "true") /\
  (DisplayOnly (parseFieldElement field) = true <->
     exists c, firstDescendant "DisplayOnly" (childNodes field) = Some c /\
       textContent c = "true") /\
  (firstDescendant "Visible" (childNodes field) = None ->
     Visible (parseFieldElement field) = false) /\
  (firstDescendant "Mandatory" (childNodes field) = None ->
     Mandatory (parseFieldElement field) = false) /\
  (firstDescendant "DisplayOnly" (childNodes field) = None ->
     DisplayOnly (parseFieldElement field) = false) /\
  (forall c, textContent c = "True" ->
     (firstDescendant "Visible" (childNodes field) = Some c ->
        Visible (parseFieldElement field) = false) /\
     (firstDescendant "Mandatory" (childNodes field) = Some c ->
        Mandatory (parseFieldElement field) = false) /\
     (firstDescendant "DisplayOnly" (childNodes field) = Some c ->
        DisplayOnly (parseFieldElement field) = false)).
Proof.
  cbn [parseFieldElement Visible Mandatory DisplayOnly].
  repeat split; try apply strictEqTrue_first.
  all: rewrite firstTextContent_first.
  all: try (intros ->; done).
  all: intros ->; simpl; by rewrite H.
Qed.

(** Properties P2 and P3 of the specification. *)
Lemma booleans_strictly_true_witness :
  Visible (parseFieldElement capitalTrueField) = false /\
  Mandatory (parseFieldElement capitalTrueField) = false /\
  DisplayOnly (parseFieldElement capitalTrueField) = false.
Proof.
  pose proof (booleans_strictly_true capitalTrueField)
    as (_ & _ & _ & _ & Hm & Hd & Htrue).
  split; [|split].
  - exact (proj1 (Htrue (Element "Visible" [Text "True"]) eq_refl) eq_refl).
  - exact (Hm eq_refl).
  - exact (Hd eq_refl).
Defined.

(** ** The CSV text *)

Lemma readsInherited_true values k :
  readsInherited values k = true
  <-> values !! k = None /\ k ∈ objectPrototypeNames.
Proof.
  unfold readsInherited, getProp. destruct (values !! k) as [s|].
  - split; [done | by intros [? _]].
  - case_bool_decide; split; try done. by intros [_ ?].
Qed.

Lemma readsInherited_false values k :
  readsInherited values k = false
  <-> (values !! k = None -> k ∉ objectPrototypeNames).
Proof.
  rewrite <- not_true_iff_false, readsInherited_true. split.
  - intros H Hk Hin. by apply H.
  - intros H [Hk Hin]. by apply H.
Qed.

Lemma readsInherited_own values k s :
  values !! k = Some s -> readsInherited values k = false.
Proof. intros H. apply readsInherited_false. by rewrite H. Qed.

(** The row of a field: its cells, with the entry of the value map as the
    Value, the empty text when there is none; or the exception, when the
    read finds an inherited property. *)
Lemma rowData_plain values f :
  readsInherited values (Id f) = false ->
  rowData values f = Value (rowCells f (default "" (values !! Id f))).
Proof.
  unfold rowData, readsInherited, getProp.
  destruct (values !! Id f) as [s|]; cbn [valueText default].
  - intros _. by rewrite orEmpty_Some.
  - by case_bool_decide.
Qed.

Lemma rowData_inherited values f :
  readsInherited values (Id f) = true ->
  rowData values f = Raise replaceTypeError.
Proof.
  unfold rowData, readsInherited.
  by destruct (getProp values (Id f)).
Qed.

Lemma rowData_ext values1 values2 f :
  values1 !! Id f = values2 !! Id f -> rowData values1 f = rowData values2 f.
Proof. intros H. unfold rowData, getProp. by rewrite H. Qed.

Lemma fold_left_appendRow_Raise values fields err :
  fold_left (appendRow values) fields (Raise err) = Raise err.
Proof. induction fields as [|f fields IH]; [done | exact IH]. Qed.

Lemma fold_left_appendRow_Value values fields acc :
  (forall f, In f fields -> Visible f = true ->
     readsInherited values (Id f) = false) ->
  fold_left (appendRow values) fields (Value acc)
  = Value (acc +:+ csvLines
             (map (fun f => rowCells f (default "" (values !! Id f)))
                (List.filter Visible fields))).
Proof.
  revert acc. induction fields as [|f fields IH]; intros acc Hplain; simpl.
  - by rewrite string_app_nil_r.
  - destruct (Visible f) eqn:Hv.
    + rewrite rowData_plain by (apply Hplain; [by left | done]).
      rewrite IH by (intros g Hg; apply Hplain; by right).
      cbn [map csvLines]. by rewrite !string_app_assoc.
    + apply IH. intros g Hg. apply Hplain. by right.
Qed.

Lemma fold_left_appendRow_throws values fields acc f :
  In f fields -> Visible f = true -> readsInherited values (Id f) = true ->
  fold_left (appendRow values) fields (Value acc) = Raise replaceTypeError.
Proof.
  revert acc. induction fields as [|g fields IH]; intros acc Hin Hv Hf;
    [done|]. simpl.
  destruct (Visible g) eqn:Hg.
  - destruct (readsInherited values (Id g)) eqn:Hr.
    + rewrite rowData_inherited by done. apply fold_left_appendRow_Raise.
    + rewrite rowData_plain by done.
      destruct Hin as [->|Hin]; [congruence|]. by apply IH.
  - destruct Hin as [->|Hin]; [congruence|]. by apply IH.
Qed.

Lemma csvContent_lines data values :
  (forall f, In f (FormField data) -> Visible f = true ->
     readsInherited values (Id f) = false) ->
  csvContent data values
  = Value (csvLines
             (headers :: map (fun f => rowCells f (default "" (values !! Id f)))
                           (List.filter Visible (FormField data)))).
Proof. intros H. unfold csvContent. by rewrite fold_left_appendRow_Value. Qed.

Lemma csvContent_throws data values f :
  In f (FormField data) -> Visible f = true ->
  readsInherited values (Id f) = true ->
  csvContent data values = Raise replaceTypeError.
Proof. intros. unfold csvContent. by eapply fold_left_appendRow_throws. Qed.

(** The export either reads no inherited property and gives the text, or
    reads one and throws. *)
Lemma csvContent_cases data values :
  ((forall f, In f (FormField data) -> Visible f = true ->
      readsInherited values (Id f) = false) /\
   csvContent data values
   = Value (csvLines
              (headers :: map (fun f => rowCells f (default "" (values !! Id f)))
                            (List.filter Visible (FormField data))))) \/
  ((exists f, In f (FormField data) /\ Visible f = true /\
      readsInherited values (Id f) = true) /\
   csvContent data values = Raise replaceTypeError).
Proof.
  destruct (existsb (fun f => Visible f && readsInherited values (Id f))
              (FormField data)) eqn:Hex.
  - right. apply existsb_exists in Hex as (f & Hin & Hf).
    apply andb_true_iff in Hf as [Hv Hr].
    split; [by exists f | by eapply csvContent_throws].
  - left.
    assert (Hplain : forall f, In f (FormField data) -> Visible f = true ->
              readsInherited values (Id f) = false).
    { intros f Hin Hv. destruct (readsInherited values (Id f)) eqn:Hr; [|done].
      rewrite <- Hex. symmetry. apply existsb_exists. exists f.
      by rewrite Hv, Hr. }
    split; [exact Hplain | by apply csvContent_lines].
Qed.

Lemma csvContent_ext_rows data values1 values2 :
  (forall f, In f (FormField data) -> Visible f = true ->
     rowData values1 f = rowData values2 f) ->
  csvContent data values1 = csvContent data values2.
Proof.
  intros H. unfold csvContent.
  generalize (Value (A := string) (join "," headers +:+ LF)).
  induction (FormField data) as [|f fields IH]; intros acc; [done|].
  simpl. rewrite IH by (intros g Hg; apply H; by right).
  f_equal. unfold appendRow. destruct acc as [csv|err]; [|done].
  destruct (Visible f) eqn:Hv; [|done].
  by rewrite (H f) by (by left || done).
Qed.

Lemma csvContent_ext data values1 values2 :
  (forall f, In f (FormField data) -> Visible f = true ->
     values1 !! Id f = values2 !! Id f) ->
  csvContent data values1 = csvContent data values2.
Proof.
  intros H. apply csvContent_ext_rows. intros f Hin Hv.
  apply rowData_ext. by apply H.
Qed.

Lemma csvLines_ends_with_LF row rows :
  exists body, csvLines (row :: rows) = body +:+ LF.
Proof.
  revert row. induction rows as [|r rows IH]; intros row.
  - exists (join "," row). cbn [csvLines]. by rewrite string_app_nil_r.
  - destruct (IH r) as (body & Hbody).
    exists ((join "," row +:+ LF) +:+ body).
    change (csvLines (row :: r :: rows))
      with ((join "," row +:+ LF) +:+ csvLines (r :: rows)).
    by rewrite Hbody, !string_app_assoc.
Qed.

Lemma doubleQuotes_cons c s :
  doubleQuotes (String c s)
  = (if Ascii.eqb c DQUOTE then Q +:+ Q else String c "") +:+ doubleQuotes s.
Proof.
  unfold doubleQuotes. cbn [replaceAll]. by destruct (Ascii.eqb c DQUOTE).
Qed.

Lemma countChar_app c (a b : string) :
  countChar c (a +:+ b) = countChar c a + countChar c b.
Proof.
  induction a as [|x a IH]; [done|].
  rewrite string_app_cons. cbn [countChar]. rewrite IH. lia.
Qed.

Lemma singleLine_app (a b : string) :
  singleLine a -> singleLine b -> singleLine (a +:+ b).
Proof. unfold singleLine. rewrite countChar_app. lia. Qed.

Lemma singleLine_doubleQuotes s : singleLine s -> singleLine (doubleQuotes s).
Proof.
  unfold singleLine. induction s as [|c s IH]; [done|].
  rewrite doubleQuotes_cons, countChar_app. cbn [countChar].
  destruct (Ascii.eqb c "010") eqn:Hc; [discriminate|].
  intros Hs. rewrite IH by exact Hs.
  destruct (Ascii.eqb c DQUOTE); [done|].
  cbn [countChar]. by rewrite Hc.
Qed.

Lemma singleLine_quoted s : singleLine s -> singleLine (Q +:+ s +:+ Q).
Proof. intros Hs. by repeat apply singleLine_app. Qed.

Lemma singleLine_boolToString b : singleLine (boolToString b).
Proof. by destruct b. Qed.

Lemma singleLine_join cells :
  Forall singleLine cells -> singleLine (join "," cells).
Proof.
  induction 1 as [|cell cells Hcell Hcells IH]; [done|].
  unfold join in *. cbn [String.concat].
  destruct cells as [|cell' cells]; [done|].
  by repeat apply singleLine_app.
Qed.

Lemma lineCount_csvLines rows :
  Forall (Forall singleLine) rows -> lineCount (csvLines rows) = length rows.
Proof.
  induction 1 as [|row rows Hrow Hrows IH]; [done|].
  cbn [csvLines length]. unfold lineCount in *.
  rewrite !countChar_app, IH.
  apply singleLine_join in Hrow. unfold singleLine in Hrow. rewrite Hrow.
  done.
Qed.

Lemma singleLine_rowCells f value :
  singleLine (Id f) -> singleLine (Label f) -> singleLine (Type_ f) ->
  singleLine (Comment f) -> singleLine value ->
  Forall singleLine (rowCells f value).
Proof.
  intros Hi Hl Ht Hc Hv. unfold rowCells.
  repeat constructor; try done; try apply singleLine_boolToString;
    by apply singleLine_quoted, singleLine_doubleQuotes.
Qed.

(** C3.  The export of a form whose visible field has the id toString and
    no entry in the value map gives no CSV text: the session below uploads
    [inheritedIdXml], generates the form, whose one field is display-only so
    that the value map stays empty, and submits it.  The Submit button is on
    the page; the read of the value map under the id finds the inherited
    method of that name, the optional call of replace throws, and the
    exception leaves the handler.  The Value of that row is not the empty
    string, and no row is emitted. *)
Theorem export_throws_on_inherited_id :
  let st := applyUpdates (stateWith inheritedIdXml)
              (@parseXml MiniDOM.parser (stateWith inheritedIdXml)) in
  @run MiniDOM.parser initialSession
    [ ChooseFile (Some inheritedIdXml); ReadDone inheritedIdXml;
      ClickGenerate; SubmitForm ]
  = Some {| app := st; reading := [] |} /\
  formData st = Some {| FormField := [inheritedIdField] |} /\
  formValues st = ∅ /\
  canSubmit st = true /\
  formValues st !! Id inheritedIdField = None /\
  getProp (formValues st) (Id inheritedIdField) = JSInherited "toString" /\
  rowData (formValues st) inheritedIdField = Raise replaceTypeError /\
  handleFormSubmit st = Raise replaceTypeError.
Proof. vm_compute. repeat split; reflexivity. Qed.

(** Scenario A of the specification: the form of [scenarioA], exported after
    the user typed hello into f1. *)
Example scenarioA_csv :
  handleFormSubmit
    (applyUpdates
       (applyUpdates (stateWith scenarioA)
          (@parseXml MiniDOM.parser (stateWith scenarioA)))
       (handleInputChange "f1" "hello"))
  = Value
      (Some ("Id,Label,Type,Value,Visible,Mandatory,DisplayOnly,Comment" +:+ LF
             +:+ "f1," +:+ Q +:+ Q +:+ ",Text," +:+ Q +:+ "hello" +:+ Q
             +:+ ",true,true,false," +:+ Q +:+ Q +:+ LF)).
Proof. vm_compute. reflexivity. Qed.

(** Property P4 of the specification: a double quote in a comment is written
    twice, inside the quotes that wrap the cell. *)
Example comment_quote_doubled :
  let f := mkField "f1" "" "Text" [] true false false
             ("say " +:+ Q +:+ "hi" +:+ Q) in
  rowData ∅ f = Value (rowCells f "") /\
  nth 7 (rowCells f "") ""
  = Q +:+ "say " +:+ Q +:+ Q +:+ "hi" +:+ Q +:+ Q +:+ Q.
Proof. vm_compute. split; reflexivity. Qed.

Lemma firstLine_app (a b : string) :
  singleLine a -> firstLine ((a +:+ LF) +:+ b) = a.
Proof.
  unfold singleLine. induction a as [|c a IH]; [done|].
  rewrite !string_app_cons. cbn [firstLine countChar].
  destruct (Ascii.eqb c "010"); [discriminate|].
  intros Ha. by rewrite IH.
Qed.

(** C2 (as stated) fails: the header row of the CSV text of the form of
    [scenarioA], exported with the value map of the parse, has eight columns,
    not seven. *)
Lemma header_row_not_seven_columns :
  ~ (forall fields values,
       generated fields values
         (@parseXml MiniDOM.parser (stateWith scenarioA)) ->
       exists csv,
         csvContent {| FormField := fields |} values = Value csv /\
         length (splitOn "," (firstLine csv)) = 7).
Proof.
  intros Hclaim.
  assert (Hgen : generated (FormField scenarioForm) {[ "f1" := "" ]}
    (@parseXml MiniDOM.parser (stateWith scenarioA))).
  { vm_compute. reflexivity. }
  destruct (Hclaim _ _ Hgen) as (csv & Hcsv & Hlen).
  vm_compute in Hcsv. injection Hcsv as <-.
  vm_compute in Hlen. discriminate Hlen.
Qed.

Lemma csv_rows_of_model (fields : list Field) (values : gmap string string) :
  (forall k v, values !! k = Some v -> v = "") ->
  (forall f, In f fields -> Visible f = true ->
     readsInherited values (Id f) = false) ->
  let visible := List.filter Visible fields in
  let rows := map (fun f => rowCells f "") visible in
  let csv := csvLines (headers :: rows) in
  csvContent {| FormField := fields |} values = Value csv /\
  length (headers :: rows) = 1 + length visible /\
  splitOn "," (firstLine csv) = headers /\
  Forall2 (fun f row =>
             row = [ Id f; Q +:+ doubleQuotes (Label f) +:+ Q; Type_ f;
                     Q +:+ Q; "true"; boolToString (Mandatory f);
                     boolToString (DisplayOnly f);
                     Q +:+ doubleQuotes (Comment f) +:+ Q ])
          visible rows /\
  ((forall f, In f visible ->
      singleLine (Id f) /\ singleLine (Label f) /\ singleLine (Type_ f) /\
      singleLine (Comment f)) ->
   lineCount csv = 1 + length visible).
Proof.
  intros Hempty Hplain visible rows csv.
  assert (Hvalue : forall f, default "" (values !! Id f) = "").
  { intros f. destruct (values !! Id f) as [v|] eqn:Hv; [|done].
    simpl. by apply (Hempty (Id f)). }
  split.
  { rewrite csvContent_lines by exact Hplain. subst csv rows visible.
    cbn [FormField]. do 3 f_equal. apply map_ext. intros f.
    by rewrite Hvalue. }
  split; [subst rows; cbn [length]; by rewrite length_map|].
  split.
  { subst csv. cbn [csvLines]. by rewrite firstLine_app. }
  split.
  { subst rows. apply Forall2_fmap_r, Forall_Forall2_diag, Forall_forall.
    intros f Hf. unfold compose, rowCells.
    apply list_elem_of_In, filter_In in Hf as [_ ->]. done. }
  intros Hsingle. subst csv. rewrite lineCount_csvLines.
  { subst rows. cbn [length]. by rewrite length_map. }
  constructor; [by repeat constructor|].
  subst rows. apply Forall_map, Forall_forall. intros f Hf.
  apply list_elem_of_In in Hf. destruct (Hsingle f Hf) as (Hi & Hl & Ht & Hc).
  by apply singleLine_rowCells.
Qed.

(** A label that runs over two lines makes a row of two lines: the text of
    one visible field then has three lines. *)
Example multiline_label_lines :
  exists csv,
    csvContent
      {| FormField :=
           [mkField "f1" ("a" +:+ LF +:+ "b") "Text" [] true false false ""] |}
      ∅
    = Value csv /\
    lineCount csv = 3.
Proof. eexists. split; vm_compute; reflexivity. Qed.

(** C2 (as amended).  For a form model produced by a successful parse and a
    value map whose entries are all the empty string, when the export reads
    no inherited property (every visible field has an entry under its id, or
    its id names no property of [Object.prototype]), the export gives a CSV
    text: the header row followed by one row per visible field, in order,
    and nothing for the other fields: one row more than there are visible
    fields.  The header row has exactly eight columns: Id, Label, Type,
    Value, Visible, Mandatory, DisplayOnly, Comment.  The row of a visible
    field has an empty quoted Value.  When no Id, Label, Type or Comment of a
    visible field holds a line feed, the rows are the lines of the text. *)
Theorem csv_row_count `{parser : DOMParser} (st : AppState)
    (fields : list Field) (seeded values : gmap string string) :
  generated fields seeded (parseXml st) ->
  (forall k v, values !! k = Some v -> v = "") ->
  (forall f, In f fields -> Visible f = true -> values !! Id f = None ->
     Id f ∉ objectPrototypeNames) ->
  let visible := List.filter Visible fields in
  let rows := map (fun f => rowCells f "") visible in
  let csv := csvLines (headers :: rows) in
  csvContent {| FormField := fields |} values = Value csv /\
  handleFormSubmit
    {| xmlContent := xmlContent st;
       formData := Some {| FormField := fields |};
       error := error st; formValues := values |}
  = Value (Some csv) /\
  length (headers :: rows) = 1 + length visible /\
  splitOn "," (firstLine csv)
  = ["Id"; "Label"; "Type"; "Value"; "Visible"; "Mandatory"; "DisplayOnly";
     "Comment"] /\
  length (splitOn "," (firstLine csv)) = 8 /\
  Forall2 (fun f row =>
             row = [ Id f; Q +:+ doubleQuotes (Label f) +:+ Q; Type_ f;
                     Q +:+ Q; "true"; boolToString (Mandatory f);
                     boolToString (DisplayOnly f);
                     Q +:+ doubleQuotes (Comment f) +:+ Q ])
          visible rows /\
  ((forall f, In f visible ->
      singleLine (Id f) /\ singleLine (Label f) /\ singleLine (Type_ f) /\
      singleLine (Comment f)) ->
   lineCount csv = 1 + length visible).
Proof.
  intros _ Hempty Hplain visible rows csv.
  assert (Hplain' : forall f, In f fields -> Visible f = true ->
            readsInherited values (Id f) = false).
  { intros f Hin Hv. apply readsInherited_false. by apply Hplain. }
  destruct (csv_rows_of_model fields values Hempty Hplain')
    as (Hcsv & Hlen & Hhead & Hrows & Hlines).
  fold visible rows csv in Hcsv, Hlen, Hhead, Hrows, Hlines.
  split; [exact Hcsv|].
  split; [unfold handleFormSubmit; cbn [formData formValues]; by rewrite Hcsv|].
  repeat split; try done.
Qed.

(** Scenario A of the specification before any input: the header line and
    the line of f1. *)
Lemma csv_row_count_witness :
  csvContent scenarioForm {[ "f1" := "" ]}
  = Value (csvLines
             [headers; rowCells (mkField "f1" "" "Text" [] true true false "") ""]).
Proof.
  assert (Hgen : generated (FormField scenarioForm) {[ "f1" := "" ]}
    (@parseXml MiniDOM.parser (stateWith scenarioA))).
  { vm_compute. reflexivity. }
  assert (Hempty : forall k v : string,
    ({[ "f1" := "" ]} : gmap string string) !! k = Some v -> v = "").
  { intros k v Hkv. apply lookup_singleton_Some in Hkv as [_ <-]. done. }
  apply (proj1 (@csv_row_count MiniDOM.parser _ _ _ _ Hgen Hempty
                  ltac:(intros f [<-|[]] _ Hnone; discriminate Hnone))).
Defined.

(** * The rendered form *)

Lemma flat_map_vElements_imap (f : nat -> string -> VNode) (l : list string) :
  (forall i x, vElements (f i x) = [f i x]) ->
  flat_map vElements (imap f l) = imap f l.
Proof.
  revert f. induction l as [|x l IH]; intros f Hf; [done|].
  cbn [imap flat_map]. rewrite Hf, IH; [done|].
  intros i y. apply Hf.
Qed.

Lemma imap_optionElement_inv (e : VNode) (items : list string) :
  e ∈ imap optionElement items ->
  exists i item, items !! i = Some item /\ e = optionElement i item.
Proof.
  intros He. apply elem_of_lookup_imap in He as (i & item & -> & Hi). eauto.
Qed.

(** The elements of the block of a field, in document order. *)
Lemma vElements_fieldBlock values f :
  vElements (fieldBlock values f)
  = fieldBlock values f :: labelElement f
    :: (if Mandatory f then [requiredMark] else [])
    ++ (if String.eqb (Type_ f) "Text"
        then [inputElement "text" values f] else [])
    ++ (if String.eqb (Type_ f) "Number"
        then [inputElement "number" values f] else [])
    ++ (if String.eqb (Type_ f) "Textarea"
        then [textareaElement values f] else [])
    ++ (if String.eqb (Type_ f) "Dropdown"
        then selectElement values f :: placeholderOption
             :: imap optionElement (ListItem f)
        else [])
    ++ (if truthy (Comment f) then [commentElement f] else []).
Proof.
  assert (Hselect : vElements (selectElement values f)
    = selectElement values f :: placeholderOption
      :: imap optionElement (ListItem f)).
  { unfold selectElement. cbn [vElements flat_map].
    rewrite flat_map_vElements_imap by done.
    cbn [placeholderOption vElements flat_map app]. by rewrite !app_nil_r. }
  unfold fieldBlock at 1. cbn [vElements flat_map].
  unfold andB, andS.
  f_equal.
  assert (Hlabel : vElements (labelElement f)
    = labelElement f :: (if Mandatory f then [requiredMark] else [])).
  { unfold labelElement, andB. destruct (Mandatory f); reflexivity. }
  rewrite Hlabel.
  cbn [app]. f_equal.
  destruct (Mandatory f), (String.eqb (Type_ f) "Text"),
    (String.eqb (Type_ f) "Number"), (String.eqb (Type_ f) "Textarea"),
    (String.eqb (Type_ f) "Dropdown"), (truthy (Comment f));
    rewrite ?Hselect; cbn [vElements flat_map app inputElement textareaElement
      commentElement]; rewrite ?app_nil_r; reflexivity.
Qed.

Lemma omap_imap_option {B} (k : VNode -> option B) (items : list string) :
  (forall i x, k (optionElement i x) = None) ->
  omap k (imap optionElement items) = [].
Proof.
  intros Hk. destruct (omap k (imap optionElement items)) as [|y l] eqn:Ho;
    [done|].
  assert (Hy : y ∈ omap k (imap optionElement items))
    by (rewrite Ho; left).
  apply list_elem_of_omap in Hy as (e & He & Hke).
  apply imap_optionElement_inv in He as (i & item & _ & ->).
  by rewrite Hk in Hke.
Qed.

Lemma filter_imap_option (p : VNode -> bool) (items : list string) :
  (forall i x, p (optionElement i x) = false) ->
  List.filter p (imap optionElement items) = [].
Proof.
  intros Hp. destruct (List.filter p (imap optionElement items)) as [|y l] eqn:Hf;
    [done|].
  assert (Hy : In y (List.filter p (imap optionElement items)))
    by (rewrite Hf; left; done).
  apply filter_In in Hy as [Hin Hpy].
  apply list_elem_of_In, imap_optionElement_inv in Hin as (i & item & _ & ->).
  by rewrite Hp in Hpy.
Qed.

(** Case analysis on the type of a field, as the four tests of [renderForm]
    make it. *)
Ltac split_type t :=
  destruct (String.eqb_spec t "Text") as [->|?];
  [| destruct (String.eqb_spec t "Number") as [->|?];
     [| destruct (String.eqb_spec t "Textarea") as [->|?];
        [| destruct (String.eqb_spec t "Dropdown") as [->|?] ] ] ].

Lemma changeTargets_fieldBlock values f :
  changeTargets (fieldBlock values f)
  = if negb (DisplayOnly f) && hasControl (Type_ f) then [Id f] else [].
Proof.
  unfold changeTargets, hasControl. rewrite vElements_fieldBlock.
  destruct f as [id label type items v m d c].
  cbn [Id Label Type_ ListItem Visible Mandatory DisplayOnly Comment].
  split_type type; destruct m, d, (truthy c); cbn;
    rewrite ?omap_app, ?omap_imap_option by done; reflexivity.
Qed.

Lemma vElements_renderField values f :
  vElements (renderField values f)
  = if Visible f then vElements (fieldBlock values f) else [].
Proof. unfold renderField. by destruct (Visible f). Qed.

Lemma flat_map_vElements_map {A} (g : A -> VNode) (l : list A) :
  flat_map vElements (map g l) = flat_map (fun a => vElements (g a)) l.
Proof. induction l as [|a l IH]; [done|]. cbn [map flat_map]. by rewrite IH. Qed.

Lemma vElements_formElement values data :
  vElements (formElement values data)
  = formElement values data
    :: flat_map (fun f => vElements (renderField values f)) (FormField data)
    ++ (if existsb Visible (FormField data) then [submitButton] else []).
Proof.
  unfold formElement at 1. cbn [vElements flat_map].
  rewrite flat_map_vElements_map, app_nil_r. f_equal. f_equal.
  by destruct (existsb Visible (FormField data)).
Qed.

Lemma vElements_renderForm st :
  vElements (renderForm st)
  = match formData st with
    | None => []
    | Some data =>
        renderForm st :: formHeading
        :: vElements (formElement (formValues st) data)
    end.
Proof.
  unfold renderForm. destruct (formData st) as [data|]; [|done].
  cbn [vElements flat_map formHeading app]. by rewrite !app_nil_r.
Qed.

Lemma vElements_errorMessage st :
  vElements (errorMessage st)
  = match error st with
    | Some message => if truthy message then [errorMessage st] else []
    | None => []
    end.
Proof.
  unfold errorMessage, andS. destruct (error st) as [m|]; [|done].
  by destruct (truthy m).
Qed.

Lemma vElements_renderApp st :
  vElements (renderApp st)
  = [ renderApp st; VElement "h1" None [] [VText "XML Form Generator"];
      uploadSection st; VElement "h2" None [] [VText "Upload XML File"];
      fileInput; generateButton st ]
    ++ vElements (errorMessage st) ++ vElements (renderForm st).
Proof.
  unfold renderApp at 1, uploadSection at 1.
  cbn [vElements flat_map fileInput generateButton app].
  by rewrite !app_nil_r.
Qed.

Lemma omap_flat_map {A B C} (k : B -> option C) (g : A -> list B) (l : list A) :
  omap k (flat_map g l) = flat_map (fun a => omap k (g a)) l.
Proof.
  induction l as [|a l IH]; [done|]. cbn [flat_map]. by rewrite omap_app, IH.
Qed.

Lemma filter_flat_map {A B} (p : B -> bool) (g : A -> list B) (l : list A) :
  List.filter p (flat_map g l) = flat_map (fun a => List.filter p (g a)) l.
Proof.
  induction l as [|a l IH]; [done|]. cbn [flat_map].
  by rewrite List.filter_app, IH.
Qed.

Lemma omap_renderApp {B} (k : VNode -> option B) st :
  omap k (vElements (renderApp st))
  = omap k [ renderApp st;
             VElement "h1" None [] [VText "XML Form Generator"];
             uploadSection st;
             VElement "h2" None [] [VText "Upload XML File"];
             fileInput; generateButton st ]
    ++ omap k (vElements (errorMessage st))
    ++ omap k (vElements (renderForm st)).
Proof. by rewrite vElements_renderApp, !omap_app. Qed.

Lemma omap_renderForm {B} (k : VNode -> option B) st data :
  formData st = Some data ->
  omap k (vElements (renderForm st))
  = omap k [renderForm st; formHeading; formElement (formValues st) data]
    ++ flat_map (fun f => if Visible f
                          then omap k (vElements (fieldBlock (formValues st) f))
                          else [])
         (FormField data)
    ++ omap k (if existsb Visible (FormField data) then [submitButton] else []).
Proof.
  intros Hdata. rewrite vElements_renderForm, Hdata, vElements_formElement.
  set (rest := flat_map _ (FormField data) ++ _).
  change (renderForm st :: formHeading
          :: formElement (formValues st) data :: rest)
    with ([renderForm st; formHeading; formElement (formValues st) data]
          ++ rest).
  subst rest. rewrite !omap_app, omap_flat_map. do 2 f_equal.
  apply flat_map_ext. intros f. rewrite vElements_renderField.
  by destruct (Visible f).
Qed.

Lemma omap_errorMessage {B} (k : VNode -> option B) st :
  (forall e, vType e = "div" -> vKey e = None -> prop "onChange" e = None ->
             prop "onClick" e = None -> k e = None) ->
  omap k (vElements (errorMessage st)) = [].
Proof.
  intros Hk. rewrite vElements_errorMessage.
  destruct (error st) as [m|] eqn:Herr; [|done].
  destruct (truthy m) eqn:Hm; [|done].
  cbn. rewrite Hk; [done| | | |]; unfold errorMessage, andS;
    by rewrite Herr, Hm.
Qed.

(** The ids that a change event of the page can carry. *)
Lemma changeTargets_renderApp st :
  changeTargets (renderApp st)
  = match formData st with
    | None => []
    | Some data =>
        flat_map (fun f =>
                    if Visible f && negb (DisplayOnly f) && hasControl (Type_ f)
                    then [Id f] else [])
          (FormField data)
    end.
Proof.
  unfold changeTargets. rewrite omap_renderApp.
  rewrite omap_errorMessage.
  2:{ intros e _ _ He _. unfold onInputChange. rewrite He.
      by destruct (isDisabled e). }
  replace (omap _ [_; _; _; _; _; generateButton st]) with (@nil string).
  2:{ unfold generateButton. cbn. by destruct (truthy (xmlContent st)). }
  cbn [app].
  destruct (formData st) as [data|] eqn:Hdata.
  2:{ rewrite vElements_renderForm, Hdata. done. }
  rewrite (omap_renderForm _ st data Hdata).
  replace (omap _ [renderForm st; _; _]) with (@nil string)
    by (unfold renderForm; by rewrite Hdata).
  replace (omap _ (if existsb Visible (FormField data) then _ else _))
    with (@nil string) by (by destruct (existsb Visible (FormField data))).
  rewrite app_nil_r. cbn [app]. apply flat_map_ext. intros f.
  destruct (Visible f); [|done]. apply changeTargets_fieldBlock.
Qed.

(** * Editing and exporting *)

Lemma doubleQuotes_step c s :
  doubleQuotes (String c s)
  = if Ascii.eqb c DQUOTE
    then String DQUOTE (String DQUOTE (doubleQuotes s))
    else String c (doubleQuotes s).
Proof.
  unfold doubleQuotes. cbn [replaceAll]. by destruct (Ascii.eqb c DQUOTE).
Qed.

Lemma doubleQuotes_inj s1 s2 : doubleQuotes s1 = doubleQuotes s2 -> s1 = s2.
Proof.
  revert s2. induction s1 as [|c1 s1 IH]; intros [|c2 s2];
    rewrite ?doubleQuotes_step.
  - done.
  - destruct (Ascii.eqb c2 DQUOTE); discriminate.
  - destruct (Ascii.eqb c1 DQUOTE); discriminate.
  - destruct (Ascii.eqb_spec c1 DQUOTE) as [->|H1],
      (Ascii.eqb_spec c2 DQUOTE) as [->|H2].
    + intros [= H]. by rewrite (IH _ H).
    + intros [= H _]. by destruct H2.
    + intros [= H _]. by destruct H1.
    + intros [= -> H]. by rewrite (IH _ H).
Qed.

Lemma string_app_inj_Q (a b : string) : a +:+ Q = b +:+ Q -> a = b.
Proof.
  revert b. induction a as [|x a IH]; intros [|y b]; rewrite ?string_app_cons.
  - done.
  - destruct b; discriminate.
  - destruct a; discriminate.
  - intros [= -> H]. by rewrite (IH _ H).
Qed.

(** X2.  The escaping of the export loses nothing: two texts have the same
    quoted cell only if they are the same text, and the cell holds every
    double quote of the text exactly twice. *)
Theorem quoted_cell_determines_text (s1 s2 : string) :
  (quoted (doubleQuotes s1) = quoted (doubleQuotes s2) <-> s1 = s2) /\
  countChar DQUOTE (doubleQuotes s1) = 2 * countChar DQUOTE s1 /\
  String.length (doubleQuotes s1) = String.length s1 + countChar DQUOTE s1.
Proof.
  split; [|split].
  - split; [|by intros ->]. unfold quoted. intros [= H].
    by apply string_app_inj_Q, doubleQuotes_inj in H.
  - induction s1 as [|c s IH]; [done|]. rewrite doubleQuotes_step.
    cbn [countChar]. destruct (Ascii.eqb c DQUOTE) eqn:Hc; cbn [countChar].
    + change (Ascii.eqb DQUOTE DQUOTE) with true. cbn iota. lia.
    + rewrite Hc. lia.
  - induction s1 as [|c s IH]; [done|]. rewrite doubleQuotes_step.
    cbn [countChar String.length].
    destruct (Ascii.eqb c DQUOTE); cbn [String.length]; lia.
Qed.

(** X17.  The export gives a CSV text exactly when it reads no inherited
    property: when every visible field has an entry in the value map under
    its id, or an id that names no property of [Object.prototype].  The text
    is then the header row followed by the rows of the visible fields in
    order, every row ended by a line feed, with the entry of the value map,
    or the empty text when there is none, as the Value of a row.  Otherwise
    the handler throws the TypeError of the failed call of replace, because
    of a visible field whose id names an inherited property and has no
    entry.  A row is Id, Label, Type, Value, Visible, Mandatory, DisplayOnly
    and Comment joined by commas: Id and Type as they are; Label, Value and
    Comment between double quotes with every double quote in them written
    twice; the booleans as true or false. *)
Theorem export_succeeds_iff (data : FormData) (values : gmap string string) :
  ((exists csv, csvContent data values = Value csv) <->
   (forall f, In f (FormField data) -> Visible f = true ->
      values !! Id f = None -> Id f ∉ objectPrototypeNames)) /\
  (forall csv, csvContent data values = Value csv ->
     csv = csvLines
             (headers :: map (fun f => rowCells f (default "" (values !! Id f)))
                           (List.filter Visible (FormField data))) /\
     exists body, csv = body +:+ LF) /\
  (forall err, csvContent data values = Raise err ->
     err = replaceTypeError /\
     exists f, In f (FormField data) /\ Visible f = true /\
       values !! Id f = None /\ Id f ∈ objectPrototypeNames) /\
  (forall row rows,
     csvLines (row :: rows) = (join "," row +:+ LF) +:+ csvLines rows) /\
  (forall f value,
     join "," (rowCells f value)
     = Id f +:+ "," +:+ (Q +:+ doubleQuotes (Label f) +:+ Q) +:+ ","
       +:+ Type_ f +:+ ","
       +:+ (Q +:+ doubleQuotes value +:+ Q) +:+ ","
       +:+ boolToString (Visible f) +:+ ","
       +:+ boolToString (Mandatory f) +:+ ","
       +:+ boolToString (DisplayOnly f) +:+ ","
       +:+ (Q +:+ doubleQuotes (Comment f) +:+ Q)) /\
  (doubleQuotes "" = "" /\
   forall c s,
     doubleQuotes (String c s)
     = (if Ascii.eqb c DQUOTE then Q +:+ Q else String c "")
       +:+ doubleQuotes s) /\
  (boolToString true = "true" /\ boolToString false = "false").
Proof.
  split; [|split; [|split]].
  - destruct (csvContent_cases data values)
      as [[Hplain Hcsv] | [(f & Hin & Hv & Hr) Hcsv]]; rewrite Hcsv.
    + split; [|by eexists]. intros _ f Hin Hv.
      by apply readsInherited_false, Hplain.
    + split; [by intros [? ?]|]. intros Hplain.
      apply readsInherited_true in Hr as [Hnone Hname].
      by destruct (Hplain f Hin Hv Hnone).
  - intros csv. destruct (csvContent_cases data values)
      as [[_ Hcsv] | [_ Hcsv]]; rewrite Hcsv; [|done].
    intros [= <-]. split; [reflexivity|].
    exact (csvLines_ends_with_LF headers _).
  - intros err. destruct (csvContent_cases data values)
      as [[_ Hcsv] | [(f & Hin & Hv & Hr) Hcsv]]; rewrite Hcsv; [done|].
    intros [= <-]. split; [done|].
    apply readsInherited_true in Hr as [Hnone Hname]. by exists f.
  - repeat split; try done. apply doubleQuotes_cons.
Qed.

(** An entry that holds the empty string is not exported like a missing one
    under the id toString: with the entry the export gives a text, without
    it the export throws. *)
Example empty_entry_shadows_inherited :
  let data := {| FormField := [inheritedIdField] |} in
  csvContent data {[ "toString" := "" ]}
  = Value (csvLines [headers; rowCells inheritedIdField ""]) /\
  csvContent data ∅ = Raise replaceTypeError.
Proof. vm_compute. split; reflexivity. Qed.

(** X14.  The export reads the value map only at the ids of the visible
    fields: two value maps that agree there give the same result, the same
    text or the same exception; under a key that names no property of
    [Object.prototype] an entry that holds the empty string is exported like
    a missing one; and two fields with the same id are exported with the
    same Value, or both throw. *)
Theorem export_reads_visible_ids (data : FormData)
    (values1 values2 : gmap string string) :
  ((forall f, In f (FormField data) -> Visible f = true ->
      values1 !! Id f = values2 !! Id f) ->
   csvContent data values1 = csvContent data values2) /\
  (forall k, k ∉ objectPrototypeNames ->
     csvContent data (<[k := ""]> values1)
     = csvContent data (delete k values1)) /\
  (forall f g, Id f = Id g ->
     match rowData values1 f, rowData values1 g with
     | Value row1, Value row2 => nth 3 row1 "" = nth 3 row2 ""
     | Raise err1, Raise err2 => err1 = err2
     | _, _ => False
     end).
Proof.
  split; [apply csvContent_ext|]. split.
  - intros k Hk. apply csvContent_ext_rows. intros f _ _.
    destruct (decide (k = Id f)) as [->|Hne].
    + rewrite !rowData_plain.
      * by rewrite lookup_insert_eq, lookup_delete_eq.
      * by apply readsInherited_false.
      * apply (readsInherited_own _ _ ""), lookup_insert_eq.
    + apply rowData_ext. by rewrite lookup_insert_ne, lookup_delete_ne.
  - intros f g Hfg.
    destruct (readsInherited values1 (Id f)) eqn:Hr.
    + rewrite !rowData_inherited; [done | by rewrite <- Hfg | done].
    + rewrite !rowData_plain; [|by rewrite <- Hfg | done].
      cbn [rowCells nth]. by rewrite Hfg.
Qed.

Lemma export_reads_visible_ids_witness :
  csvContent scenarioForm {[ "f1" := "hello"; "other" := "x" ]}
  = csvContent scenarioForm {[ "f1" := "hello" ]}.
Proof.
  apply (proj1 (export_reads_visible_ids scenarioForm
                  {[ "f1" := "hello"; "other" := "x" ]} {[ "f1" := "hello" ]})).
  intros f [<-|[]] _. reflexivity.
Defined.

(** X1.  After [handleInputChange] the row of every field whose Id is the
    edited id is computed without an exception and has the new text, between
    quotes and with its quotes doubled, as its Value; the row of every other
    field is computed as before, the same cells or the same exception.  When
    no visible field with another id reads an inherited property, the export
    gives the text of the header row and the rows of the visible fields.  The
    edit changes that one entry of the value map and neither the form model,
    the error nor the upload buffer. *)
Theorem edit_then_export (st : AppState) (data : FormData)
    (fieldId value : string) :
  formData st = Some data ->
  let st' := applyUpdates st (handleInputChange fieldId value) in
  (forall f, Id f = fieldId ->
     rowData (formValues st') f = Value (rowCells f value) /\
     nth 3 (rowCells f value) "" = Q +:+ doubleQuotes value +:+ Q) /\
  (forall f, Id f <> fieldId ->
     rowData (formValues st') f = rowData (formValues st) f) /\
  ((forall f, In f (FormField data) -> Visible f = true -> Id f <> fieldId ->
      formValues st !! Id f = None -> Id f ∉ objectPrototypeNames) ->
   handleFormSubmit st'
   = Value (Some (csvLines
                    (headers
                     :: map (fun f => rowCells f
                                        (default "" (formValues st' !! Id f)))
                          (List.filter Visible (FormField data)))))) /\
  formValues st' !! fieldId = Some value /\
  (forall k, k <> fieldId -> formValues st' !! k = formValues st !! k) /\
  formData st' = formData st /\ error st' = error st /\
  xmlContent st' = xmlContent st.
Proof.
  intros Hdata st'. subst st'. cbn [handleInputChange applyUpdates fold_left
    applyUpdate formValues formData error xmlContent].
  split; [|split; [|split]].
  - intros f <-. split; [|done].
    rewrite rowData_plain by (apply (readsInherited_own _ _ value),
                               lookup_insert_eq).
    by rewrite lookup_insert_eq.
  - intros f Hne. apply rowData_ext. by rewrite lookup_insert_ne.
  - intros Hplain. unfold handleFormSubmit. cbn [formData formValues].
    rewrite Hdata, csvContent_lines; [done|].
    intros f Hin Hv. destruct (decide (Id f = fieldId)) as [<-|Hne].
    + apply (readsInherited_own _ _ value), lookup_insert_eq.
    + apply readsInherited_false. rewrite lookup_insert_ne by done.
      by apply Hplain.
  - repeat split.
    + apply lookup_insert_eq.
    + intros k Hne. by rewrite lookup_insert_ne.
Qed.

Lemma edit_then_export_witness :
  let st := applyUpdates (stateWith scenarioA)
              (@parseXml MiniDOM.parser (stateWith scenarioA)) in
  let f1 := mkField "f1" "" "Text" [] true true false "" in
  rowData (formValues (applyUpdates st (handleInputChange "f1" "hello"))) f1
  = Value (rowCells f1 "hello") /\
  nth 3 (rowCells f1 "hello") "" = Q +:+ doubleQuotes "hello" +:+ Q.
Proof.
  exact (proj1 (edit_then_export
                  (applyUpdates (stateWith scenarioA)
                     (@parseXml MiniDOM.parser (stateWith scenarioA)))
                  scenarioForm "f1" "hello" eq_refl)
           (mkField "f1" "" "Text" [] true true false "") eq_refl).
Defined.

(** * What parseXml never does *)

(** X3.  The second emptiness check of [parseXml] never fires: no run sets
    the message about valid fields, and a run that finds no Field element
    reports it with the message of the first check. *)
Theorem no_valid_fields_never_reported `{parser : DOMParser} (st : AppState) :
  ~ In (SetError (Some "No valid fields found in the XML")) (parseXml st) /\
  (failedWith NoFields (parseXml st) <->
   parseXml st = [SetError (Some "No Field elements found in the XML")]).
Proof.
  pose proof (parseXml_cases st) as Hcases. cbv zeta in Hcases.
  destruct Hcases as [(Hx & ->) | [(Hx & err & He & ->)
    | [(Hx & doc & Hd & Hpe & ->) | [(Hx & doc & Hd & Hpe & Hfs & ->)
    | (Hx & doc & Hd & Hpe & Hfs & ->)]]]].
  all: split; [intros [H|H]; [discriminate H | try (destruct H as [H|[]]; discriminate H); try destruct H] |].
  all: split; [|intros H; try discriminate H;
                apply failedWith_single; reflexivity].
  all: try (intros H; by apply failedWith_two in H).
  all: rewrite failedWith_single, ?reportedAs_unexpected; try discriminate.
  all: done.
Qed.

(** X4.  A successful [parseXml] replaces the form model and the value map
    and touches nothing else: the error of the next render is the error of
    the current one, so a message set by an earlier failure stays on the
    page next to the new form. *)
Theorem success_keeps_error `{parser : DOMParser} (st : AppState)
    (fields : list Field) (values : gmap string string) :
  generated fields values (parseXml st) ->
  error (applyUpdates st (parseXml st)) = error st /\
  xmlContent (applyUpdates st (parseXml st)) = xmlContent st /\
  formData (applyUpdates st (parseXml st)) = Some {| FormField := fields |} /\
  fields <> [].
Proof.
  intros Hgen. pose proof (generated_inv st fields values Hgen)
    as (_ & doc & _ & _ & Hne & -> & _).
  rewrite Hgen. repeat split.
  destruct (getElementsByTagName "Field" (documentChildNodes doc)); done.
Qed.

Lemma success_keeps_error_witness :
  generated (FormField scenarioForm) {[ "f1" := "" ]}
    (@parseXml MiniDOM.parser staleErrorState) /\
  error (applyUpdates staleErrorState (@parseXml MiniDOM.parser staleErrorState))
  = Some "Invalid XML file".
Proof.
  assert (Hgen : generated (FormField scenarioForm) {[ "f1" := "" ]}
    (@parseXml MiniDOM.parser staleErrorState)).
  { vm_compute. reflexivity. }
  split; [exact Hgen|].
  exact (proj1 (@success_keeps_error MiniDOM.parser _ _ _ Hgen)).
Defined.

(** * What is on the page *)

Lemma filter_omap {A} (p : A -> bool) (l : list A) :
  List.filter p l = omap (fun e => if p e then Some e else None) l.
Proof.
  induction l as [|a l IH]; [done|]. cbn. rewrite IH. by destruct (p a).
Qed.

Lemma existsb_omap {A} (p : A -> bool) (l : list A) :
  existsb p l
  = match omap (fun e => if p e then Some e else None) l with
    | [] => false
    | _ :: _ => true
    end.
Proof.
  induction l as [|a l IH]; [done|]. cbn. rewrite IH. by destruct (p a).
Qed.

Lemma flat_map_visible_ids (fields : list Field) :
  flat_map (fun f => if Visible f then [Id f] else []) fields
  = map Id (List.filter Visible fields).
Proof.
  induction fields as [|f fields IH]; [done|]. cbn. rewrite IH.
  by destruct (Visible f).
Qed.

Lemma keyString_fieldBlock values f :
  omap keyString (vElements (fieldBlock values f)) = [Id f].
Proof.
  rewrite vElements_fieldBlock.
  destruct f as [id label type items v m d c].
  cbn [Id Label Type_ ListItem Visible Mandatory DisplayOnly Comment].
  split_type type; destruct m, (truthy c); cbn;
    rewrite ?omap_app, ?omap_imap_option by done; reflexivity.
Qed.

Lemma keyString_renderApp st :
  omap keyString (vElements (renderApp st))
  = match formData st with
    | None => []
    | Some data => map Id (List.filter Visible (FormField data))
    end.
Proof.
  rewrite omap_renderApp, omap_errorMessage.
  2:{ intros e _ He _ _. unfold keyString. by rewrite He. }
  cbn [omap list_omap keyString vKey renderApp uploadSection fileInput
       generateButton app].
  destruct (formData st) as [data|] eqn:Hdata.
  2:{ rewrite vElements_renderForm, Hdata. done. }
  rewrite (omap_renderForm _ st data Hdata).
  replace (omap keyString [renderForm st; _; _]) with (@nil string)
    by (unfold renderForm; by rewrite Hdata).
  replace (omap keyString (if existsb Visible (FormField data) then _ else _))
    with (@nil string) by (by destruct (existsb Visible (FormField data))).
  rewrite app_nil_r. cbn [app]. rewrite <- flat_map_visible_ids.
  apply flat_map_ext. intros f. destruct (Visible f); [|done].
  apply keyString_fieldBlock.
Qed.

Lemma splitOn_first c (a rest : string) :
  countChar c a = 0 -> splitOn c (a +:+ String c rest) = a :: splitOn c rest.
Proof.
  induction a as [|x a IH]; cbn [countChar].
  - intros _. change ("" +:+ String c rest) with (String c rest).
    cbn [splitOn]. by rewrite Ascii.eqb_refl.
  - rewrite string_app_cons. cbn [splitOn].
    destruct (Ascii.eqb x c); [discriminate|]. intros Ha. by rewrite IH.
Qed.

Lemma splitOn_csvLines rows :
  Forall (Forall singleLine) rows ->
  splitOn "010" (csvLines rows) = map (join ",") rows ++ [""].
Proof.
  induction 1 as [|row rows Hrow Hrows IH]; [done|].
  cbn [csvLines map]. rewrite <- app_comm_cons, <- IH.
  rewrite string_app_assoc.
  change (LF +:+ csvLines rows) with (String "010" (csvLines rows)).
  apply splitOn_first. by apply singleLine_join.
Qed.

Lemma head_splitOn_rowCells f value :
  countChar "," (Id f) = 0 ->
  head (splitOn "," (join "," (rowCells f value))) = Some (Id f).
Proof.
  intros Hid.
  change (join "," (rowCells f value))
    with (Id f +:+ String ","
            (join "," (List.tl (rowCells f value)))).
  by rewrite splitOn_first.
Qed.

(** An id that holds a comma is written as it is: the first cell of the
    line is then the part of the id before the comma. *)
Example comma_in_id_splits_cell :
  head (splitOn "," (join "," (rowCells (mkField "n,2" "" "Text" [] true false
                                           false "") "")))
  = Some "n".
Proof. reflexivity. Qed.

(** X5.  The blocks of the form on the page are the rows of the export: the
    keys of the rendered blocks are the ids of the visible fields, in the
    order of the form model, whatever the type of the field; and when the
    export gives a text, and no Id, Label, Type, Comment or entered value of
    a visible field holds a line feed and no Id a comma, the lines of the
    text are the header line followed by one line per visible field, in the
    same order, whose first cell is the id of the field. *)
Theorem page_blocks_are_export_rows (st : AppState) (data : FormData) :
  formData st = Some data ->
  let visible := List.filter Visible (FormField data) in
  omap keyString (vElements (renderApp st)) = map Id visible /\
  (forall csv, handleFormSubmit st = Value (Some csv) ->
     (forall f, In f visible ->
        singleLine (Id f) /\ singleLine (Label f) /\ singleLine (Type_ f) /\
        singleLine (Comment f) /\
        singleLine (default "" (formValues st !! Id f)) /\
        countChar "," (Id f) = 0) ->
     exists lines,
       splitOn "010" csv = join "," headers :: lines ++ [""] /\
       map (fun line => head (splitOn "," line)) lines
       = map (fun f => Some (Id f)) visible).
Proof.
  intros Hdata visible. split; [by rewrite keyString_renderApp, Hdata|].
  intros csv. unfold handleFormSubmit. rewrite Hdata.
  destruct (csvContent_cases data (formValues st))
    as [[_ Hcsv] | [_ Hcsv]]; rewrite Hcsv; [|done]. fold visible.
  set (rows := map (fun f => rowCells f (default "" (formValues st !! Id f)))
                 visible).
  set (text := csvLines (headers :: rows)).
  intros [= <-] Hcells. subst text.
  exists (map (join ",") rows). split.
  - rewrite splitOn_csvLines; [done|].
    constructor; [by repeat constructor|].
    subst rows. apply Forall_map, Forall_forall. intros f Hf.
    apply list_elem_of_In in Hf.
    destruct (Hcells f Hf) as (Hi & Hl & Ht & Hc & Hv & _).
    by apply singleLine_rowCells.
  - subst rows. rewrite !List.map_map. apply map_ext_in. intros f Hf.
    apply head_splitOn_rowCells. by destruct (Hcells f Hf) as (_&_&_&_&_&?).
Qed.

Lemma page_blocks_are_export_rows_witness :
  let st := applyUpdates (stateWith textFieldWithListXml)
              (@parseXml MiniDOM.parser (stateWith textFieldWithListXml)) in
  omap keyString (vElements (renderApp st)) = ["c"].
Proof.
  exact (proj1 (page_blocks_are_export_rows
                  (applyUpdates (stateWith textFieldWithListXml)
                     (@parseXml MiniDOM.parser
                        (stateWith textFieldWithListXml)))
                  {| FormField := [mkField "c" "" "Text" ["A"] true false false ""] |}
                  eq_refl)).
Defined.

Lemma fieldControls_fieldBlock values f :
  fieldControls (fieldBlock values f)
  = if String.eqb (Type_ f) "Text" then [inputElement "text" values f]
    else if String.eqb (Type_ f) "Number" then [inputElement "number" values f]
    else if String.eqb (Type_ f) "Textarea" then [textareaElement values f]
    else if String.eqb (Type_ f) "Dropdown" then [selectElement values f]
    else [].
Proof.
  unfold fieldControls. rewrite filter_omap, vElements_fieldBlock.
  destruct f as [id label type items v m d c].
  cbn [Id Label Type_ ListItem Visible Mandatory DisplayOnly Comment].
  split_type type; destruct m, (truthy c); cbn;
    rewrite ?omap_app, ?omap_imap_option by done; reflexivity.
Qed.

Lemma valueOrEmpty_own values k s :
  values !! k = Some s -> valueOrEmpty (getProp values k) = PString s.
Proof.
  intros H. unfold getProp. rewrite H. cbn [valueOrEmpty].
  by rewrite orEmpty_Some.
Qed.

Lemma valueOrEmpty_plain values k :
  values !! k = None -> k ∉ objectPrototypeNames ->
  valueOrEmpty (getProp values k) = PString "".
Proof.
  intros H Hk. unfold getProp. rewrite H. by rewrite bool_decide_eq_false_2.
Qed.

Lemma valueOrEmpty_inherited values k :
  values !! k = None -> k ∈ objectPrototypeNames ->
  valueOrEmpty (getProp values k) = PInherited k.
Proof.
  intros H Hk. unfold getProp. rewrite H. by rewrite bool_decide_eq_true_2.
Qed.

(** X6.  An invisible field puts nothing on the page.  A visible field shows
    exactly one control when its type is Text, Number, Textarea or Dropdown,
    and no control for any other type.  The control is required when the
    field is mandatory, disabled when it is display-only, carries the comment
    as its title and reports its changes under the field's id.  It shows the
    entry of the value map at that id; without an entry it shows the empty
    string, unless the id names a property of [Object.prototype]: then its
    value is the inherited function or object. *)
Theorem control_of_field (values : gmap string string) (f : Field) :
  (Visible f = false -> vElements (renderField values f) = []) /\
  (Visible f = true -> hasControl (Type_ f) = false ->
     fieldControls (renderField values f) = []) /\
  (Visible f = true -> hasControl (Type_ f) = true ->
     exists c,
       fieldControls (renderField values f) = [c] /\
       onInputChange c = Some (Id f) /\
       prop "required" c = Some (PBool (Mandatory f)) /\
       prop "disabled" c = Some (PBool (DisplayOnly f)) /\
       prop "title" c = Some (PString (Comment f)) /\
       (forall s, values !! Id f = Some s ->
          prop "value" c = Some (PString s)) /\
       (values !! Id f = None -> Id f ∉ objectPrototypeNames ->
          prop "value" c = Some (PString "")) /\
       (values !! Id f = None -> Id f ∈ objectPrototypeNames ->
          prop "value" c = Some (PInherited (Id f))) /\
       vType c = (if String.eqb (Type_ f) "Textarea" then "textarea"
                  else if String.eqb (Type_ f) "Dropdown" then "select"
                  else "input") /\
       (Type_ f = "Text" -> prop "type" c = Some (PString "text")) /\
       (Type_ f = "Number" -> prop "type" c = Some (PString "number"))).
Proof.
  split; [|split].
  - intros Hv. by rewrite vElements_renderField, Hv.
  - intros Hv. unfold renderField. rewrite Hv. cbn [negb].
    rewrite fieldControls_fieldBlock. unfold hasControl.
    destruct (String.eqb (Type_ f) "Text"),
      (String.eqb (Type_ f) "Number"), (String.eqb (Type_ f) "Textarea"),
      (String.eqb (Type_ f) "Dropdown"); done.
  - intros Hv. unfold renderField. rewrite Hv. cbn [negb].
    rewrite fieldControls_fieldBlock. unfold hasControl.
    destruct f as [id label type items v m d c].
    cbn [Id Label Type_ ListItem Visible Mandatory DisplayOnly Comment].
    split_type type; cbn [String.eqb Ascii.eqb Bool.eqb orb];
      try discriminate; intros _.
    all: eexists; split; [reflexivity|].
    all: cbn [onInputChange prop inputElement textareaElement selectElement
              controlProps lookupProp String.eqb Ascii.eqb Bool.eqb vType
              Id Mandatory DisplayOnly Comment].
    all: repeat split; try done.
    all: try (intros s Hs; f_equal; by apply valueOrEmpty_own).
    all: try (intros Hn Hk; f_equal; by apply valueOrEmpty_plain).
    all: try (intros Hn Hk; f_equal; by apply valueOrEmpty_inherited).
    all: try (by rewrite (proj2 (String.eqb_neq _ _)) in * by done).
Qed.

Lemma control_of_field_witness :
  fieldControls
    (renderField ∅ (mkField "f1" "" "Colour" [] true false false "pick"))
  = [].
Proof.
  exact (proj1 (proj2 (control_of_field ∅
           (mkField "f1" "" "Colour" [] true false false "pick")))
           eq_refl eq_refl).
Defined.

(** The control of a field whose id is toString and that has no entry shows
    the inherited method, not the empty string. *)
Example control_shows_inherited :
  prop "value" (inputElement "text" ∅ inheritedIdField)
  = Some (PInherited "toString").
Proof. reflexivity. Qed.

Lemma filter_imap_option_all (p : VNode -> bool) (items : list string) :
  (forall i x, p (optionElement i x) = true) ->
  List.filter p (imap optionElement items) = imap optionElement items.
Proof.
  intros Hp. apply forallb_filter_id, forallb_forall. intros e He.
  apply list_elem_of_In, imap_optionElement_inv in He as (i & item & _ & ->).
  apply Hp.
Qed.

Lemma map_imap_option {B} (g : VNode -> B) (h : string -> B)
    (items : list string) :
  (forall i x, g (optionElement i x) = h x) ->
  map g (imap optionElement items) = map h items.
Proof.
  intros Hg. apply list_eq. intros i.
  rewrite !list_lookup_fmap, list_lookup_imap.
  destruct (items !! i) as [x|]; [|done]. cbn. by rewrite Hg.
Qed.

(** X7.  Only a Dropdown shows its list items.  The option elements of the
    block of a visible field are, for a Dropdown, the option Select an option
    with the empty value followed by one option per list item, in order,
    whose value and text are the item; a field of any other type has no
    option element, whatever its list items. *)
Theorem options_of_field (values : gmap string string) (f : Field) :
  let options :=
    List.filter (fun e => String.eqb (vType e) "option")
      (vElements (renderField values f)) in
  options
  = (if Visible f && String.eqb (Type_ f) "Dropdown"
     then placeholderOption :: imap optionElement (ListItem f) else []) /\
  map (prop "value") options
  = (if Visible f && String.eqb (Type_ f) "Dropdown"
     then Some (PString "") :: map (fun item => Some (PString item)) (ListItem f)
     else []) /\
  map vChildren options
  = (if Visible f && String.eqb (Type_ f) "Dropdown"
     then [VText "Select an option"]
          :: map (fun item => [VText item]) (ListItem f)
     else []).
Proof.
  intros options.
  assert (Hoptions : options
    = if Visible f && String.eqb (Type_ f) "Dropdown"
      then placeholderOption :: imap optionElement (ListItem f) else []).
  { subst options. rewrite vElements_renderField.
    destruct (Visible f); [|done]. rewrite vElements_fieldBlock.
    destruct f as [id label type items v m d c].
    cbn [Id Label Type_ ListItem Visible Mandatory DisplayOnly Comment andb].
    split_type type; destruct m, (truthy c); cbn;
      rewrite ?List.filter_app, ?filter_imap_option_all by done;
      rewrite ?app_nil_r; try reflexivity.
    all: by rewrite !(proj2 (String.eqb_neq _ _)) by done. }
  rewrite Hoptions. split; [done|].
  destruct (Visible f && String.eqb (Type_ f) "Dropdown"); [|done].
  cbn [map]. split; f_equal.
  - by apply map_imap_option.
  - by apply map_imap_option.
Qed.

Lemma isSubmitButton_fieldBlock values f :
  omap (fun e => if isSubmitButton e then Some e else None)
    (vElements (fieldBlock values f)) = [].
Proof.
  rewrite vElements_fieldBlock.
  destruct f as [id label type items v m d c].
  cbn [Id Label Type_ ListItem Visible Mandatory DisplayOnly Comment].
  split_type type; destruct m, (truthy c); cbn;
    rewrite ?omap_app, ?omap_imap_option by done; reflexivity.
Qed.

Lemma flat_map_nil {A B} (g : A -> list B) (l : list A) :
  (forall a, g a = []) -> flat_map g l = [].
Proof. intros Hg. induction l as [|a l IH]; [done|]. cbn. by rewrite Hg, IH. Qed.

Lemma canSubmit_visible st :
  canSubmit st
  = match formData st with
    | Some data => existsb Visible (FormField data)
    | None => false
    end.
Proof.
  unfold canSubmit. rewrite existsb_omap, omap_renderApp, omap_errorMessage.
  2:{ intros e He _ _ _. unfold isSubmitButton. by rewrite He. }
  cbn [omap list_omap isSubmitButton vType renderApp uploadSection fileInput
       generateButton app String.eqb Ascii.eqb Bool.eqb andb].
  destruct (formData st) as [data|] eqn:Hdata.
  2:{ rewrite vElements_renderForm, Hdata. done. }
  rewrite (omap_renderForm _ st data Hdata).
  replace (omap _ [renderForm st; _; _]) with (@nil VNode)
    by (unfold renderForm; by rewrite Hdata).
  rewrite flat_map_nil.
  2:{ intros f. destruct (Visible f); [|done]. apply isSubmitButton_fieldBlock. }
  cbn [app]. by destruct (existsb Visible (FormField data)).
Qed.

(** X8.  The Submit button is on the page exactly when the form on screen
    has a visible field: a form without a visible field cannot be submitted.
    So whenever the form can be submitted the handler does not return early,
    and a text that it offers has the header row and at least one data
    row. *)
Theorem submit_offered_iff_visible (st : AppState) :
  (canSubmit st = true <->
   exists data f, formData st = Some data /\ In f (FormField data) /\
     Visible f = true) /\
  (canSubmit st = true ->
   handleFormSubmit st <> Value None /\
   forall csv, handleFormSubmit st = Value (Some csv) ->
     exists row rows, csv = csvLines (headers :: row :: rows)).
Proof.
  rewrite canSubmit_visible. split.
  - destruct (formData st) as [data|].
    + rewrite existsb_exists. split.
      * intros (f & Hin & Hv). eauto.
      * intros (data' & f & [= <-] & Hin & Hv). eauto.
    + split; [done|]. by intros (data & f & [=] & _).
  - unfold handleFormSubmit. destruct (formData st) as [data|]; [|done].
    rewrite existsb_exists. intros (f & Hin & Hv).
    destruct (csvContent_cases data (formValues st))
      as [[_ Hcsv] | [_ Hcsv]]; rewrite Hcsv; [|done].
    split; [done|]. intros csv [= <-].
    assert (Hf : In f (List.filter Visible (FormField data)))
      by (apply filter_In; by split).
    destruct (List.filter Visible (FormField data)) as [|g gs]; [done|].
    cbn [map]. eauto.
Qed.

Lemma submit_offered_iff_visible_witness :
  let st := applyUpdates (stateWith scenarioA)
              (@parseXml MiniDOM.parser (stateWith scenarioA)) in
  handleFormSubmit st <> Value None.
Proof.
  exact (proj1 (proj2 (submit_offered_iff_visible
                         (applyUpdates (stateWith scenarioA)
                            (@parseXml MiniDOM.parser (stateWith scenarioA))))
                  eq_refl)).
Defined.

Lemma isGenerateButton_fieldBlock values f :
  omap (fun e => if isGenerateButton e && negb (isDisabled e)
                 then Some e else None)
    (vElements (fieldBlock values f)) = [].
Proof.
  rewrite vElements_fieldBlock.
  destruct f as [id label type items v m d c].
  cbn [Id Label Type_ ListItem Visible Mandatory DisplayOnly Comment].
  split_type type; destruct m, d, (truthy c); cbn;
    rewrite ?omap_app, ?omap_imap_option by done; reflexivity.
Qed.

Lemma canGenerate_buffer st : canGenerate st = truthy (xmlContent st).
Proof.
  unfold canGenerate. rewrite existsb_omap, omap_renderApp, omap_errorMessage.
  2:{ intros e _ _ _ He. unfold isGenerateButton. rewrite He.
      by rewrite bool_decide_eq_false_2. }
  assert (Hform : omap (fun e => if isGenerateButton e && negb (isDisabled e)
                                 then Some e else None)
                    (vElements (renderForm st)) = []).
  { destruct (formData st) as [data|] eqn:Hdata.
    2:{ rewrite vElements_renderForm, Hdata. done. }
    rewrite (omap_renderForm _ st data Hdata).
    replace (omap _ [renderForm st; _; _]) with (@nil VNode)
      by (unfold renderForm; by rewrite Hdata).
    rewrite flat_map_nil.
    2:{ intros f. destruct (Visible f); [|done].
        apply isGenerateButton_fieldBlock. }
    by destruct (existsb Visible (FormField data)). }
  rewrite Hform. unfold generateButton. cbn.
  by destruct (truthy (xmlContent st)).
Qed.

(** X9.  The Generate button is enabled exactly when the upload buffer is
    not empty, which is exactly when [parseXml] does not fail with Empty: a
    click on the button as rendered never produces the message that asks to
    upload a file first. *)
Theorem generate_enabled_iff_buffer `{parser : DOMParser} (st : AppState) :
  canGenerate st = truthy (xmlContent st) /\
  (canGenerate st = true <-> xmlContent st <> "") /\
  (canGenerate st = true <-> ~ failedWith Empty (parseXml st)).
Proof.
  rewrite canGenerate_buffer. split; [done|]. split; [apply truthy_true|].
  rewrite parseXml_unfold. destruct (truthy (xmlContent st)) eqn:Hx.
  - split; [|done]. intros _.
    destruct (parseFromString (xmlContent st) "text/xml") as [doc|err].
    + destruct (getElementsByTagName "parsererror" (documentChildNodes doc)).
      * destruct (getElementsByTagName "Field" (documentChildNodes doc)).
        -- rewrite failedWith_single. discriminate.
        -- apply failedWith_two.
      * rewrite failedWith_single. discriminate.
    + rewrite failedWith_single, reportedAs_unexpected. discriminate.
  - split; [done|]. intros H. destruct H. by apply failedWith_single.
Qed.

Lemma fieldControls_renderApp st :
  fieldControls (renderApp st)
  = match formData st with
    | None => []
    | Some data =>
        flat_map (fun f => if Visible f
                           then fieldControls (fieldBlock (formValues st) f)
                           else [])
          (FormField data)
    end.
Proof.
  unfold fieldControls at 1. rewrite filter_omap, omap_renderApp.
  rewrite omap_errorMessage.
  2:{ intros e _ _ He _. unfold onInputChange. by rewrite He. }
  cbn [omap list_omap renderApp uploadSection fileInput generateButton app].
  destruct (formData st) as [data|] eqn:Hdata.
  2:{ rewrite vElements_renderForm, Hdata. done. }
  rewrite (omap_renderForm _ st data Hdata).
  replace (omap _ [renderForm st; _; _]) with (@nil VNode)
    by (unfold renderForm; by rewrite Hdata).
  replace (omap _ (if existsb Visible (FormField data) then _ else _))
    with (@nil VNode) by (by destruct (existsb Visible (FormField data))).
  rewrite app_nil_r. cbn [app]. apply flat_map_ext. intros f.
  destruct (Visible f); [|done]. unfold fieldControls. by rewrite filter_omap.
Qed.

Lemma control_in_fieldBlock values f c :
  In c (fieldControls (fieldBlock values f)) ->
  onInputChange c = Some (Id f) /\
  prop "value" c = Some (valueOrEmpty (getProp values (Id f))) /\
  prop "disabled" c = Some (PBool (DisplayOnly f)).
Proof.
  rewrite fieldControls_fieldBlock.
  destruct (String.eqb (Type_ f) "Text"); [|
  destruct (String.eqb (Type_ f) "Number"); [|
  destruct (String.eqb (Type_ f) "Textarea"); [|
  destruct (String.eqb (Type_ f) "Dropdown"); [|done]]]].
  all: by intros [<-|[]].
Qed.

(** Every control of the page belongs to a visible field of the form on
    screen, and shows what the read of the value map at the id it edits
    gives. *)
Lemma control_of_page st c :
  In c (fieldControls (renderApp st)) ->
  exists data f,
    formData st = Some data /\ In f (FormField data) /\ Visible f = true /\
    onInputChange c = Some (Id f) /\
    prop "value" c = Some (valueOrEmpty (getProp (formValues st) (Id f))) /\
    prop "disabled" c = Some (PBool (DisplayOnly f)).
Proof.
  rewrite fieldControls_renderApp.
  destruct (formData st) as [data|]; [|done].
  intros Hc. apply in_flat_map in Hc as (f & Hf & Hc).
  destruct (Visible f) eqn:Hv; [|done].
  apply control_in_fieldBlock in Hc as (Hid & Hvalue & Hdis).
  exists data, f. by repeat split.
Qed.

(** X13.  Right after a successful [parseXml], whatever the value map held
    before, also when the same text is parsed again: every control whose id
    names no property of [Object.prototype] shows the empty string; so does
    every enabled control, unless its id is [__proto__]; and any other
    control shows the empty string or the inherited function or object of
    its id. *)
Theorem fresh_form_is_blank `{parser : DOMParser} (st : AppState)
    (fields : list Field) (values : gmap string string) :
  generated fields values (parseXml st) ->
  forall c k,
    In c (fieldControls (renderApp (applyUpdates st (parseXml st)))) ->
    onInputChange c = Some k ->
    (k ∉ objectPrototypeNames -> prop "value" c = Some (PString "")) /\
    (isDisabled c = false -> k <> "__proto__" ->
       prop "value" c = Some (PString "")) /\
    (prop "value" c = Some (PString "") \/
     k ∈ objectPrototypeNames /\ prop "value" c = Some (PInherited k)).
Proof.
  intros Hgen c k Hc Hk.
  apply control_of_page in Hc
    as (data & f & Hdata & Hf & Hvis & Hid & Hvalue & Hdis).
  rewrite Hid in Hk. injection Hk as <-.
  rewrite Hgen in Hdata, Hvalue.
  cbn [applyUpdates fold_left applyUpdate formValues formData] in Hdata, Hvalue.
  injection Hdata as <-. cbn [FormField] in Hf.
  apply generated_inv in Hgen as (_ & _ & _ & _ & _ & _ & ->).
  rewrite Hvalue. unfold isDisabled. rewrite Hdis.
  destruct (fold_left seedValue fields ∅ !! Id f) as [v|] eqn:Hv.
  - apply seeded_Some in Hv as Hv'. destruct Hv' as (-> & _).
    rewrite (valueOrEmpty_own _ _ "" Hv). by repeat split; try left.
  - split; [|split].
    + intros Hn. by rewrite valueOrEmpty_plain.
    + intros Hd Hp. destruct (DisplayOnly f) eqn:Hdo; [done|].
      rewrite seeded_editable in Hv; [done..| |done].
      unfold editable. by rewrite Hvis, Hdo.
    + destruct (decide (Id f ∈ objectPrototypeNames)) as [Hn|Hn].
      * right. split; [done|]. by rewrite valueOrEmpty_inherited.
      * left. by rewrite valueOrEmpty_plain.
Qed.

Lemma fresh_form_is_blank_witness :
  let st := stateAfterEdit scenarioA in
  let c := inputElement "text" {[ "f1" := "" ]}
             (mkField "f1" "" "Text" [] true true false "") in
  formValues st !! "f1" = Some "hello" /\
  prop "value" c = Some (PString "").
Proof.
  split; [reflexivity|].
  assert (Hgen : generated (FormField scenarioForm) {[ "f1" := "" ]}
    (@parseXml MiniDOM.parser (stateAfterEdit scenarioA))).
  { vm_compute. reflexivity. }
  assert (Hc : In (inputElement "text" {[ "f1" := "" ]}
                     (mkField "f1" "" "Text" [] true true false ""))
    (fieldControls
       (renderApp
          (applyUpdates (stateAfterEdit scenarioA)
             (@parseXml MiniDOM.parser (stateAfterEdit scenarioA)))))).
  { vm_compute. left. reflexivity. }
  apply (proj1 (@fresh_form_is_blank MiniDOM.parser _ _ _ Hgen _ "f1" Hc
                  eq_refl)).
  intros Hin. apply (bool_decide_pack _) in Hin. vm_compute in Hin. done.
Defined.

(** A field that takes input under the id [__proto__] starts with the
    inherited object as the value of its control. *)
Example proto_control_not_blank :
  let st := applyUpdates (stateWith protoIdXml)
              (@parseXml MiniDOM.parser (stateWith protoIdXml)) in
  map (prop "value") (fieldControls (renderApp st))
  = [Some (PInherited "__proto__")].
Proof. vm_compute. reflexivity. Qed.

(** X15.  What is typed is what is shown: after [handleInputChange] every
    control that edits the changed id shows the new text, and every other
    control shows what it showed before: what the read of the value map of
    before the edit gives at its id, or the empty string. *)
Theorem edit_then_render (st : AppState) (fieldId value : string) (c : VNode) :
  let st' := applyUpdates st (handleInputChange fieldId value) in
  In c (fieldControls (renderApp st')) ->
  (onInputChange c = Some fieldId -> prop "value" c = Some (PString value)) /\
  (forall k, onInputChange c = Some k -> k <> fieldId ->
     prop "value" c = Some (valueOrEmpty (getProp (formValues st) k)) /\
     forall c0, In c0 (fieldControls (renderApp st)) ->
       onInputChange c0 = Some k -> prop "value" c0 = prop "value" c).
Proof.
  intros st' Hc.
  apply control_of_page in Hc as (data & f & _ & _ & _ & Hid & Hvalue & _).
  rewrite Hvalue, Hid. subst st'.
  cbn [handleInputChange applyUpdates fold_left applyUpdate formValues].
  split.
  - intros [= ->]. f_equal. apply valueOrEmpty_own, lookup_insert_eq.
  - intros k [= <-] Hne.
    assert (Hsame : getProp (<[fieldId := value]> (formValues st)) (Id f)
                    = getProp (formValues st) (Id f)).
    { unfold getProp. by rewrite lookup_insert_ne. }
    rewrite Hsame. split; [done|]. intros c0 Hc0 Hk0.
    apply control_of_page in Hc0 as (data0 & g & _ & _ & _ & Hid0 & Hvalue0 & _).
    rewrite Hvalue0. rewrite Hid0 in Hk0. injection Hk0 as Hk0.
    by rewrite Hk0.
Qed.

Lemma edit_then_render_witness :
  let st := applyUpdates (stateWith scenarioA)
              (@parseXml MiniDOM.parser (stateWith scenarioA)) in
  let c := inputElement "text" {[ "f1" := "hello" ]}
             (mkField "f1" "" "Text" [] true true false "") in
  In c (fieldControls
          (renderApp (applyUpdates st (handleInputChange "f1" "hello")))) /\
  prop "value" c = Some (PString "hello").
Proof.
  assert (Hc : In (inputElement "text" {[ "f1" := "hello" ]}
                     (mkField "f1" "" "Text" [] true true false ""))
    (fieldControls
       (renderApp
          (applyUpdates
             (applyUpdates (stateWith scenarioA)
                (@parseXml MiniDOM.parser (stateWith scenarioA)))
             (handleInputChange "f1" "hello"))))).
  { vm_compute. left. reflexivity. }
  split; [exact Hc|].
  exact (proj1 (edit_then_render _ "f1" "hello" _ Hc) eq_refl).
Defined.

(** * Sessions *)

Section SessionFacts.
Context `{parser : DOMParser}.

Lemma changeTarget_editable st fieldId :
  fieldId ∈ changeTargets (renderApp st) ->
  exists data f, formData st = Some data /\ In f (FormField data) /\
    editable f = true /\ hasControl (Type_ f) = true /\ Id f = fieldId.
Proof.
  rewrite changeTargets_renderApp. destruct (formData st) as [data|];
    [|by intros ?%elem_of_nil].
  intros Hin. apply list_elem_of_In, in_flat_map in Hin as (f & Hf & Hin).
  destruct (Visible f) eqn:Hv, (DisplayOnly f) eqn:Hd,
    (hasControl (Type_ f)) eqn:Hh; cbn in Hin; try done.
  destruct Hin as [<-|[]]. exists data, f. unfold editable.
  rewrite Hv, Hd. by repeat split.
Qed.


Lemma fire_invariant s e s' :
  sessionInvariant (app s) -> fire s e = Some s' -> sessionInvariant (app s').
Proof.
  intros (Hform & Hvalues & Herr). destruct e as [file|content| |fieldId value|];
    cbn [fire handleFileUpload].
  - intros [= <-]. cbn. split; [exact Hform|]. split; [exact Hvalues | by left].
  - destruct (bool_decide _); [|done]. intros [= <-]. cbn. by repeat split.
  - destruct (canGenerate (app s)) eqn:Hcan; [|done]. intros [= <-].
    cbn [app]. rewrite canGenerate_buffer in Hcan. apply truthy_true in Hcan.
    pose proof (parseXml_cases (app s)) as Hcases. cbv zeta in Hcases.
    destruct Hcases as [(Hx & _) | [(_ & err & _ & ->)
      | [(_ & doc & _ & _ & ->) | [(_ & doc & _ & _ & _ & ->)
      | (_ & doc & _ & _ & Hfs & ->)]]]]; [done| | | |].
    + split; [exact Hform|]. split; [exact Hvalues|].
      cbn. right. right. right. by exists err.
    + split; [exact Hform|]. split; [exact Hvalues|]. cbn. right. by left.
    + split; [exact Hform|]. split; [exact Hvalues|].
      cbn. right. right. by left.
    + split; [|split; [|exact Herr]]; cbn.
      * split; [|split].
        -- by destruct (getElementsByTagName "Field" (documentChildNodes doc)).
        -- intros k [v Hv].
           by apply seeded_Some in Hv as (_ & _ & Hf).
        -- intros f Hin He Hk. by rewrite seeded_editable.
      * intros k v Hkv. apply seeded_Some in Hkv as [-> _]. by left.
  - case_bool_decide as Hin; [|done]. intros [= <-].
    apply changeTarget_editable in Hin as (data & f & Hdata & Hf & He & Hh & <-).
    split; [|split; [|exact Herr]]; cbn.
    + rewrite Hdata in Hform |- *.
      destruct Hform as (Hne & Hkeys & Hall). split; [exact Hne|]. split.
      * intros k. destruct (decide (Id f = k)) as [<-|Hk]; [by eauto|].
        rewrite lookup_insert_ne by done. apply Hkeys.
      * intros g Hg Heg Hp. destruct (decide (Id f = Id g)) as [Heq|Hneq].
        -- rewrite Heq, lookup_insert_eq. by eexists.
        -- rewrite lookup_insert_ne by done. by apply Hall.
    + intros k v. destruct (decide (Id f = k)) as [<-|Hne].
      * intros _. right. exists data, f. by rewrite Hdata.
      * rewrite lookup_insert_ne by done. intros Hk.
        destruct (Hvalues k v Hk) as [->|(data' & g & Hd & Hg)]; [by left|].
        right. exists data', g. split; [exact Hd | exact Hg].
  - destruct (canSubmit (app s)); [|done]. by intros [= <-].
Qed.

Lemma run_invariant events s s' :
  sessionInvariant (app s) -> run s events = Some s' ->
  sessionInvariant (app s').
Proof.
  revert s. induction events as [|e events IH]; intros s Hinv; cbn [run].
  - by intros [= <-].
  - destruct (fire s e) as [s1|] eqn:Hfire; [|done].
    apply IH. by eapply fire_invariant.
Qed.

Lemma reachable_invariant s : reachable s -> sessionInvariant (app s).
Proof.
  intros (events & Hrun). eapply run_invariant; [|exact Hrun].
  split; [done|]. split; [|by left]. intros k v. cbn. by rewrite lookup_empty.
Qed.

(** X10.  In every state that a session can reach, every key of the value
    map is the id of a visible field of the form on screen that is not
    display-only, and every such id other than [__proto__] is a key; the map
    is empty while there is no form.  An edit never removes a key, and it
    adds none, unless it is the first edit under the id [__proto__].  A form
    on screen has at least one field. *)
Theorem reachable_value_keys (s : Session) :
  reachable s ->
  match formData (app s) with
  | None => formValues (app s) = ∅
  | Some data =>
      FormField data <> [] /\
      (forall k, is_Some (formValues (app s) !! k) ->
         exists f, In f (FormField data) /\ editable f = true /\ Id f = k) /\
      (forall f, In f (FormField data) -> editable f = true ->
         Id f <> "__proto__" -> is_Some (formValues (app s) !! Id f))
  end.
Proof. intros Hs. by apply reachable_invariant in Hs as (Hform & _ & _). Qed.

(** X11.  The error on the page of a session is none, the message of a
    parsererror element, the message of a missing Field element, or the
    generic message of an exception.  The message that asks to upload a file
    first is never shown, because the button is disabled while the buffer is
    empty, and neither is the message about valid fields. *)
Theorem reachable_errors (s : Session) :
  reachable s ->
  (error (app s) = None \/ error (app s) = Some "Invalid XML file" \/
   error (app s) = Some "No Field elements found in the XML" \/
   exists err, error (app s) = Some ("Error parsing XML: " +:+ err)) /\
  error (app s) <> Some "Please upload an XML file first" /\
  error (app s) <> Some "No valid fields found in the XML".
Proof.
  intros Hs. apply reachable_invariant in Hs as (_ & _ & Herr).
  split; [exact Herr|].
  destruct Herr as [-> | [-> | [-> | (err & ->)]]]; split; discriminate.
Qed.

(** X12.  In a session, a field whose id is not the id of a visible field
    with an enabled control (a field that is display-only, invisible or of a
    type that has no control, and that shares its id with no field that
    takes input) never has a text under its id: nothing the user does puts
    one there.  Its row, whenever the export computes it, has the empty
    Value; and the export computes it when the id names no property of
    [Object.prototype]. *)
Theorem uneditable_exports_empty (s : Session) (data : FormData) (f : Field) :
  reachable s ->
  formData (app s) = Some data ->
  (forall g, In g (FormField data) -> editable g = true ->
     hasControl (Type_ g) = true -> Id g <> Id f) ->
  (formValues (app s) !! Id f = None \/
   formValues (app s) !! Id f = Some "") /\
  (forall row, rowData (formValues (app s)) f = Value row ->
     nth 3 row "" = Q +:+ Q) /\
  (Id f ∉ objectPrototypeNames ->
   rowData (formValues (app s)) f = Value (rowCells f "")).
Proof.
  intros Hs Hdata Hother. apply reachable_invariant in Hs as (_ & Hvalues & _).
  assert (Hentry : formValues (app s) !! Id f = None \/
                   formValues (app s) !! Id f = Some "").
  { destruct (formValues (app s) !! Id f) as [v|] eqn:Hv; [|by left].
    destruct (Hvalues _ _ Hv) as [->|(data' & g & Hd & Hg & He & Hh & Hid)];
      [by right|].
    rewrite Hdata in Hd. injection Hd as <-. by destruct (Hother g). }
  assert (Hdefault : default "" (formValues (app s) !! Id f) = "")
    by (by destruct Hentry as [-> | ->]).
  split; [exact Hentry|]. split.
  - intros row. destruct (readsInherited (formValues (app s)) (Id f)) eqn:Hr.
    + by rewrite rowData_inherited.
    + rewrite rowData_plain, Hdefault by done. by intros [= <-].
  - intros Hname. rewrite rowData_plain, Hdefault; [done|].
    by apply readsInherited_false.
Qed.


End SessionFacts.

(** The sessions of the examples are reached by the events that their names
    tell. *)
Lemma editedSession_reachable : @reachable MiniDOM.parser editedSession.
Proof. exists scenarioEvents. vm_compute. reflexivity. Qed.

Lemma failedSession_reachable : @reachable MiniDOM.parser failedSession.
Proof.
  exists [ChooseFile (Some "<notxml"); ReadDone "<notxml"; ClickGenerate].
  vm_compute. reflexivity.
Qed.

Lemma mixedSession_reachable : @reachable MiniDOM.parser mixedSession.
Proof.
  exists [ ChooseFile (Some mixedXml); ReadDone mixedXml; ClickGenerate;
           ChangeInput "f1" "hello" ].
  vm_compute. reflexivity.
Qed.

Lemma reachable_value_keys_witness :
  @reachable MiniDOM.parser editedSession /\
  FormField scenarioForm <> [] /\
  (forall k, is_Some (formValues (app editedSession) !! k) ->
     exists f, In f (FormField scenarioForm) /\ editable f = true /\ Id f = k) /\
  (forall f, In f (FormField scenarioForm) -> editable f = true ->
     Id f <> "__proto__" -> is_Some (formValues (app editedSession) !! Id f)).
Proof.
  split; [exact editedSession_reachable|].
  exact (@reachable_value_keys MiniDOM.parser editedSession
           editedSession_reachable).
Defined.

(** The first edit of a field that takes input under the id [__proto__]
    adds the key that the seeding could not create. *)
Example first_edit_adds_proto_key :
  exists s,
    @run MiniDOM.parser initialSession
      [ ChooseFile (Some protoIdXml); ReadDone protoIdXml; ClickGenerate ]
    = Some s /\
    formValues (app s) = ∅ /\
    exists s',
      @fire MiniDOM.parser s (ChangeInput "__proto__" "x") = Some s' /\
      formValues (app s') = {[ "__proto__" := "x" ]}.
Proof.
  eexists. split; [vm_compute; reflexivity|]. split; [reflexivity|].
  eexists. split; vm_compute; reflexivity.
Qed.

Lemma reachable_errors_witness :
  @reachable MiniDOM.parser failedSession /\
  error (app failedSession) <> Some "Please upload an XML file first".
Proof.
  split; [exact failedSession_reachable|].
  exact (proj1 (proj2 (@reachable_errors MiniDOM.parser failedSession
                         failedSession_reachable))).
Defined.

Lemma uneditable_exports_empty_witness :
  @reachable MiniDOM.parser mixedSession /\
  rowData (formValues (app mixedSession)) readOnlyField
  = Value (rowCells readOnlyField "").
Proof.
  split; [exact mixedSession_reachable|].
  apply (proj2 (proj2 (@uneditable_exports_empty MiniDOM.parser mixedSession
                         mixedForm readOnlyField mixedSession_reachable eq_refl
                         ltac:(intros g [<-|[<-|[]]] He _;
                               [discriminate | discriminate He])))).
  intros Hin. apply (bool_decide_pack _) in Hin. vm_compute in Hin. done.
Defined.

